(** * MySQL automation scripts: backup runner and deployment runner

    A shallow embedding of [backup_script.py] and
    [deploy_changes_script.py].  The two scripts are thin sequential
    wrappers around the file system, the wall clock, the [mysql] /
    [mysqldump] binaries and the [mysql.connector] driver.  Each script is
    embedded as state-passing code in a small state-and-exception monad; the
    outside world (clock readings, exit codes of child processes, errors
    raised by the driver) is supplied by an explicit environment record. *)

From Stdlib Require Import Ascii.
From stdpp Require Import base option list strings gmap pretty.

(** ** Python built-ins used by the scripts *)

Module Py.

(** A Python [str] is modelled as a Rocq [string]: one [ascii] per code
    point below 256.  [isspace] is [str.isspace] on that range. *)
Definition isspace (c : ascii) : bool :=
  let n := N_of_ascii c in
  ((9 <=? n) && (n <=? 13) || (28 <=? n) && (n <=? 31)
   || (n =? 32) || (n =? 133) || (n =? 160))%N.

(** [s.lstrip()], [s.rstrip()] and [s.strip()] with no argument. *)
Fixpoint lstrip (s : string) : string :=
  match s with
  | "" => ""
  | String c s' => if isspace c then lstrip s' else s
  end.

Fixpoint rstrip (s : string) : string :=
  match s with
  | "" => ""
  | String c s' =>
      match rstrip s' with
      | "" => if isspace c then "" else String c ""
      | t => String c t
      end
  end.

Definition strip (s : string) : string := rstrip (lstrip s).

(** [s.split(sep)] for a one-character separator: never returns the empty
    list, [''.split(';') == ['']]. *)
Fixpoint split (sep : ascii) (s : string) : list string :=
  match s with
  | "" => [""]
  | String c s' =>
      if decide (c = sep) then "" :: split sep s'
      else match split sep s' with
           | [] => [String c ""]
           | piece :: pieces => String c piece :: pieces
           end
  end.

(** Reading in text mode with universal newlines: [\r\n] and a lone
    [\r] become [\n]. *)
Fixpoint universal_newlines (s : string) : string :=
  match s with
  | "" => ""
  | String c s' =>
      if decide (c = "013"%char) then
        String "010"
          match s' with
          | String c' s'' =>
              if decide (c' = "010"%char) then universal_newlines s''
              else universal_newlines s'
          | "" => ""
          end
      else String c (universal_newlines s')
  end.

(** [sep.join(pieces)]. *)
Fixpoint join (sep : string) (pieces : list string) : string :=
  match pieces with
  | [] => ""
  | [piece] => piece
  | piece :: rest => piece +:+ sep +:+ join sep rest
  end.

(** [c in s] for a one-character [c]. *)
Fixpoint contains (c : ascii) (s : string) : bool :=
  match s with
  | "" => false
  | String c' s' => bool_decide (c' = c) || contains c s'
  end.

(** A string of white space only; the empty string is one. *)
Fixpoint blank (s : string) : bool :=
  match s with
  | "" => true
  | String c s' => isspace c && blank s'
  end.

(** Truth value of a [str]: only the empty string is falsy. *)
Definition truthy (s : string) : bool :=
  match s with "" => false | _ => true end.

Definition startswith (c : ascii) (s : string) : bool :=
  match s with String c' _ => bool_decide (c' = c) | "" => false end.

Fixpoint endswith (c : ascii) (s : string) : bool :=
  match s with
  | "" => false
  | String c' "" => bool_decide (c' = c)
  | String _ s' => endswith c s'
  end.

(** [posixpath.join(a, b)] *)
Definition os_path_join (a b : string) : string :=
  if startswith "/"%char b then b
  else if negb (truthy a) || endswith "/"%char a then a +:+ b
  else a +:+ "/" +:+ b.

(** Exceptions the scripts can meet. [MySQLError] stands for
    [mysql.connector.Error] and all of its subclasses. *)
Inductive exn :=
| MySQLError (msg : string)
| CalledProcessError (returncode : Z)
| FileNotFoundError (path : string)
| PermissionError (path : string)
| JSONDecodeError
| AttributeError (msg : string)
| UnicodeDecodeError.

Inductive result (A : Type) :=
| Ok (a : A)
| Raise (e : exn).
Global Arguments Ok {A} a.
Global Arguments Raise {A} e.

(** [logging]: what the scripts hand to the root logger. [exc] is the
    exception interpolated at the end of the message, when there is one. *)
Inductive level := INFO | WARNING | ERROR.
Record log_record := LogRecord {
  levelname : level;
  message : string;
  exc : option exn
}.

(** State and exception monad over a state type [S]. *)
Definition M (S A : Type) : Type := S → S * result A.

Definition ret {S A} (a : A) : M S A := λ s, (s, Ok a).
Definition raise {S A} (e : exn) : M S A := λ s, (s, Raise e).
Definition bind {S A B} (m : M S A) (k : A → M S B) : M S B :=
  λ s, match m s with
       | (s', Ok a) => k a s'
       | (s', Raise e) => (s', Raise e)
       end.
Definition gets {S A} (f : S → A) : M S A := λ s, (s, Ok (f s)).
Definition modify {S} (f : S → S) : M S unit := λ s, (f s, Ok tt).

(** [try: body / except <class> as e: handler e]: [handler] answers
    [None] on the exceptions the clause does not match. Effects of the
    body up to the raise are kept. *)
Definition try_except {S A} (body : M S A) (handler : exn → option (M S A))
  : M S A :=
  λ s, match body s with
       | (s', Ok a) => (s', Ok a)
       | (s', Raise e) =>
           match handler e with
           | Some h => h s'
           | None => (s', Raise e)
           end
       end.

(** [for x in xs: body x] *)
Fixpoint for_each {S A} (xs : list A) (body : A → M S unit) : M S unit :=
  match xs with
  | [] => ret tt
  | x :: xs' => bind (body x) (λ _, for_each xs' body)
  end.

End Py.

Import Py.

Notation "'let!' x ':=' m 'in' k" := (Py.bind m (λ x, k))
  (at level 10, x name, m at level 100, k at level 200,
   format "'[v' 'let!'  x  ':='  m  'in'  '/' k ']'").

(** ** backup_script.py *)

Module Backup.

(** [datetime.datetime], to the second. *)
Record datetime := DateTime {
  year : Z; month : Z; day : Z;
  hour : Z; minute : Z; second : Z
}.

(** The ranges the [datetime] type enforces ([MINYEAR = 1],
    [MAXYEAR = 9999]). *)
Definition valid_datetime (d : datetime) : Prop :=
  (1 ≤ year d ≤ 9999 ∧ 1 ≤ month d ≤ 12 ∧ 1 ≤ day d ≤ 31 ∧
   0 ≤ hour d < 24 ∧ 0 ≤ minute d < 60 ∧ 0 ≤ second d < 60)%Z.

Definition digit (n : Z) : ascii := ascii_of_N (Z.to_N (48 + n mod 10)).

(** [%m], [%d], [%H], [%M], [%S]: two digits, zero padded. *)
Definition pad2 (n : Z) : string :=
  String (digit (n / 10)) (String (digit n) "").

(** [%Y]: four digits, zero padded, as the [datetime] module documents
    it. *)
Definition pad4 (n : Z) : string :=
  String (digit (n / 1000)) (String (digit (n / 100)) (pad2 n)).

(** [d.strftime('%Y%m%d_%H%M%S')] *)
Definition strftime (d : datetime) : string :=
  pad4 (year d) +:+ pad2 (month d) +:+ pad2 (day d) +:+ "_" +:+
  pad2 (hour d) +:+ pad2 (minute d) +:+ pad2 (second d).

(** What [subprocess.run] meets: the child ran and exited, having
    written [stdout], and what it wrote on its output and error streams is
    text in the locale's encoding; or it ran and exited but some of what it
    wrote is not such text; or it could not be started at all. *)
Inductive completed :=
| Exited (returncode : Z) (stdout : string)
| Undecodable (returncode : Z) (stdout : string)
| NotStarted (e : exn).

(** The outside world: the [k]-th reading of the clock, the [k]-th child
    process, and the paths that cannot be opened for writing. *)
Record env := Env {
  clock : nat → datetime;
  child : nat → list string → completed;
  open_w_error : string → option exn
}.

Record world := World {
  files : gmap string string;
  clock_reads : nat;
  spawned : nat;
  log : list log_record
}.

Definition logging (l : level) (msg : string) (e : option exn) : M world unit :=
  modify (λ w, World (files w) (clock_reads w) (spawned w)
                     (log w ++ [LogRecord l msg e])).

Definition denylist : list string :=
  ["information_schema"; "performance_schema"; "mysql"; "sys"].

Section Script.
Variable E : env.
(** The fields [__init__] stores on [self]. *)
Variables host user password backup_dir : string.

(** [datetime.datetime.now()] *)
Definition datetime_now : M world datetime :=
  λ w, (World (files w) (S (clock_reads w)) (spawned w) (log w),
        Ok (clock E (clock_reads w))).

(** [subprocess.run(cmd, ..., check=True)]. With [stdout=f] the child
    writes to the file [sink] that the caller opened, and nothing is
    decoded. With [capture_output=True, text=True] ([sink] is [None]) both
    streams are decoded, strictly and with universal newlines, before the
    exit status is looked at. *)
Definition subprocess_run (cmd : list string) (sink : option string)
  : M world string :=
  λ w,
    let w1 := World (files w) (clock_reads w) (S (spawned w)) (log w) in
    let check rc w2 out :=
      if decide (rc = 0%Z) then (w2, Ok out)
      else (w2, Raise (CalledProcessError rc)) in
    let written path out :=
      World (<[path := out]> (files w1)) (clock_reads w1) (spawned w1)
            (log w1) in
    match child E (spawned w) cmd, sink with
    | NotStarted e, _ => (w1, Raise e)
    | Exited rc out, Some path => check rc (written path out) out
    | Undecodable rc out, Some path => check rc (written path out) out
    | Exited rc out, None => check rc w1 (universal_newlines out)
    | Undecodable rc out, None => (w1, Raise UnicodeDecodeError)
    end.

(** [open(path, 'w')]: creates or truncates. *)
Definition open_w (path : string) : M world unit :=
  λ w, match open_w_error E path with
       | Some e => (w, Raise e)
       | None => (World (<[path := ""]> (files w)) (clock_reads w)
                        (spawned w) (log w), Ok tt)
       end.

Definition on_CalledProcessError {A} (h : exn → M world A)
  : exn → option (M world A) :=
  λ e, match e with CalledProcessError _ => Some (h e) | _ => None end.

Definition mysql_cmd : list string :=
  ["mysql"; "--host=" +:+ host; "--user=" +:+ user;
   "--password=" +:+ password; "-e"; "SHOW DATABASES;"].

Definition mysqldump_cmd (database : string) : list string :=
  ["mysqldump"; "--host=" +:+ host; "--user=" +:+ user;
   "--password=" +:+ password; "--single-transaction";
   "--routines"; "--triggers"; "--events"; database].

Definition get_databases : M world (list string) :=
  try_except
    (let cmd := mysql_cmd in
     let! stdout := subprocess_run cmd None in
     let databases := tail (split "010"%char (strip stdout)) in
     ret (filter (λ db, db ∉ denylist) databases))
    (on_CalledProcessError (λ e,
       let! _ := logging ERROR "Error getting databases: " (Some e) in
       ret [])).

Definition create_backup (database : string) : M world (option string) :=
  let! now := datetime_now in
  let timestamp := strftime now in
  let backup_file :=
    os_path_join backup_dir (database +:+ "_" +:+ timestamp +:+ ".sql") in
  try_except
    (let cmd := mysqldump_cmd database in
     let! _ := open_w backup_file in
     let! _ := subprocess_run cmd (Some backup_file) in
     let! _ := logging INFO ("Successfully created backup for " +:+
                             database +:+ ": " +:+ backup_file) None in
     ret (Some backup_file))
    (on_CalledProcessError (λ e,
       let! _ := logging ERROR ("Error creating backup for " +:+
                                database +:+ ": ") (Some e) in
       ret None)).

(** The loop of [backup_all_databases], threading [backup_files]. *)
Fixpoint backup_loop (databases : list string) (backup_files : list string)
  : M world (list string) :=
  match databases with
  | [] => ret backup_files
  | database :: rest =>
      let! backup_file := create_backup database in
      backup_loop rest
        (match backup_file with
         | Some p => if truthy p then backup_files ++ [p] else backup_files
         | None => backup_files
         end)
  end.

Definition backup_all_databases : M world (list string) :=
  let! databases := get_databases in
  backup_loop databases [].

End Script.

(** *** Vocabulary of the specification *)

Definition is_digit (c : ascii) : bool :=
  let n := N_of_ascii c in ((48 <=? n) && (n <=? 57))%N.

(** The shape [YYYYMMDD_HHMMSS]: eight digits, an underscore, six
    digits. *)
Definition is_timestamp (s : string) : bool :=
  let cs := String.list_ascii_of_string s in
  bool_decide (length cs = 15) &&
  forallb is_digit (take 8 cs) &&
  bool_decide (cs !! 8 = Some "_"%char) &&
  forallb is_digit (drop 9 cs).

(** The directory part of a path inside [dir]: [dir] and the separator
    that follows it, unless [dir] is empty or already ends in one. *)
Definition directory_prefix (dir : string) : string :=
  if negb (truthy dir) || endswith "/"%char dir then dir else dir +:+ "/".

(** The path [create_backup] builds for [database] when the clock reads
    [now]. *)
Definition backup_path (backup_dir database : string) (now : datetime)
  : string :=
  os_path_join backup_dir (database +:+ "_" +:+ strftime now +:+ ".sql").

(** The paths of a run over [databases] whose first clock reading is
    number [first]: one per database, in order. *)
Definition backup_paths (E : env) (backup_dir : string) (first : nat)
    (databases : list string) : list string :=
  imap (λ k database, backup_path backup_dir database (clock E (first + k)))
       databases.

(** Those among them whose dump exits with status 0, when the first dump
    is child process number [sp]. *)
Fixpoint successful_paths (E : env) (host user password backup_dir : string)
    (c sp : nat) (databases : list string) : list string :=
  match databases with
  | [] => []
  | database :: rest =>
      match child E sp (mysqldump_cmd host user password database) with
      | Exited 0 _ => [backup_path backup_dir database (clock E c)]
      | _ => []
      end ++ successful_paths E host user password backup_dir (S c) (S sp) rest
  end.

(** The dump of the [k]-th database of a run whose first dump is child
    process number [first] exits with a non-zero status. *)
Definition dump_fails (E : env) (host user password : string)
    (first : nat) (databases : list string) (k : nat) : Prop :=
  ∃ database rc out,
    databases !! k = Some database ∧
    child E (first + k) (mysqldump_cmd host user password database)
      = Exited rc out ∧ rc ≠ 0%Z.

Definition dump_succeeds (E : env) (host user password : string)
    (first : nat) (databases : list string) (k : nat) : Prop :=
  ∃ database out,
    databases !! k = Some database ∧
    child E (first + k) (mysqldump_cmd host user password database)
      = Exited 0 out.

End Backup.

(** ** deploy_changes_script.py *)

Module Deploy.

(** Values of the [json] module: what [json.load] returns and
    [json.dump] accepts. A Python [dict] keeps its insertion order. *)
Local Unset Elimination Schemes.
Inductive json :=
| JNull
| JBool (b : bool)
| JNumber (literal : string)
| JString (s : string)
| JArray (items : list json)
| JObject (members : list (string * json)).
Local Set Elimination Schemes.

(** What a file holds: text written by somebody else, or the text that
    [json.dump v] wrote, which [json.load] reads back as [v] (the [json]
    module round-trips lists, dicts with string keys and strings). *)
Inductive contents :=
| Text (s : string)
| JsonDump (v : json).

Record file := File {
  readable : bool;
  writable : bool;
  data : contents
}.

(** Calls made on the [mysql.connector] driver, in order. *)
Inductive db_call :=
| Connect
| Cursor
| Execute (operation : string)
| Commit
| CursorClose
| Close.

(** [self.connection], when it is not [None]. *)
Inductive connection_obj := MySQLConnection (connected : bool).

(** The outside world: the [k]-th reading of the clock in ISO-8601 form,
    the driver call that raises [mysql.connector.Error] after the calls
    made so far, the [json] codec on text the script did not write, and
    the paths at which no file can be created. *)
Record env := Env {
  isoformat_now : nat → string;
  driver_error : list db_call → db_call → option string;
  json_loads : string → option json;
  json_dumps : json → string;
  open_w_error : string → option exn
}.

Record state := State {
  connection : option connection_obj;
  files : gmap string file;
  clock_reads : nat;
  db_calls : list db_call;
  log : list log_record
}.

Definition set_connection (c : option connection_obj) (s : state) : state :=
  State c (files s) (clock_reads s) (db_calls s) (log s).
Definition set_files (fs : gmap string file) (s : state) : state :=
  State (connection s) fs (clock_reads s) (db_calls s) (log s).
Definition set_clock_reads (n : nat) (s : state) : state :=
  State (connection s) (files s) n (db_calls s) (log s).
Definition set_db_calls (cs : list db_call) (s : state) : state :=
  State (connection s) (files s) (clock_reads s) cs (log s).
Definition set_log (l : list log_record) (s : state) : state :=
  State (connection s) (files s) (clock_reads s) (db_calls s) l.

Definition logging (l : level) (msg : string) (e : option exn) : M state unit :=
  modify (λ s, set_log (log s ++ [LogRecord l msg e]) s).

(** [self.deployment_history_file] *)
Definition deployment_history_file : string := "deployment_history.json".

(** [self.connection and self.connection.is_connected()] *)
Definition is_live (c : option connection_obj) : bool :=
  match c with
  | Some (MySQLConnection connected) => connected
  | None => false
  end.

Section Script.
Variable E : env.
Variables host user password database : string.

(** [datetime.now().isoformat()] *)
Definition now_isoformat : M state string :=
  λ s, (set_clock_reads (S (clock_reads s)) s,
        Ok (isoformat_now E (clock_reads s))).

(** One call on the driver that may raise [mysql.connector.Error]. *)
Definition driver (c : db_call) : M state unit :=
  λ s, let s' := set_db_calls (db_calls s ++ [c]) s in
       match driver_error E (db_calls s) c with
       | Some msg => (s', Raise (MySQLError msg))
       | None => (s', Ok tt)
       end.

(** [open(path, 'r')] and [open(path, 'r+')] *)
Definition open_r (path : string) : M state contents :=
  λ s, match files s !! path with
       | None => (s, Raise (FileNotFoundError path))
       | Some f =>
           if readable f then (s, Ok (data f))
           else (s, Raise (PermissionError path))
       end.

Definition open_rw (path : string) : M state contents :=
  λ s, match files s !! path with
       | None => (s, Raise (FileNotFoundError path))
       | Some f =>
           if readable f && writable f then (s, Ok (data f))
           else (s, Raise (PermissionError path))
       end.

(** [f.read()] *)
Definition read (c : contents) : string :=
  match c with
  | Text s => s
  | JsonDump v => json_dumps E v
  end.

(** [json.load(f)] *)
Definition json_load (c : contents) : M state json :=
  match c with
  | JsonDump v => ret v
  | Text s =>
      match json_loads E s with
      | Some v => ret v
      | None => raise JSONDecodeError
      end
  end.

(** [f.seek(0); json.dump(v, f, indent=4); f.truncate()] on a file
    that is open for update. *)
Definition rewrite_json (path : string) (v : json) : M state unit :=
  modify (λ s, set_files (alter (λ f, File (readable f) (writable f)
                                            (JsonDump v)) path (files s)) s).

(** [with open(path, 'w') as f: json.dump(v, f)]: [open] raises where no
    file can be created. *)
Definition create_json (path : string) (v : json) : M state unit :=
  λ s, match open_w_error E path with
       | Some e => (s, Raise e)
       | None =>
           (set_files (<[path := File true true (JsonDump v)]> (files s)) s,
            Ok tt)
       end.

(** [history.append(record)]: only a list has [append]. *)
Definition append (history record : json) : M state json :=
  match history with
  | JArray items => ret (JArray (items ++ [record]))
  | _ => raise (AttributeError "append")
  end.

Definition _init_deployment_history : M state unit :=
  let! exists_ :=
    gets (λ s, bool_decide (is_Some (files s !! deployment_history_file))) in
  if negb exists_ then create_json deployment_history_file (JArray [])
  else ret tt.

Definition on_Error {A} (h : exn → M state A) : exn → option (M state A) :=
  λ e, match e with MySQLError _ => Some (h e) | _ => None end.

Definition connect : M state bool :=
  try_except
    (let! _ := driver Connect in
     let! _ := modify (set_connection (Some (MySQLConnection true))) in
     let! _ := logging INFO ("Successfully connected to database: " +:+
                             database) None in
     ret true)
    (on_Error (λ e,
       let! _ := logging ERROR "Error connecting to database: " (Some e) in
       ret false)).

(** [self.connection.close()] raises nothing and leaves the connection
    object disconnected. *)
Definition connection_close : M state unit :=
  modify (λ s, set_connection (Some (MySQLConnection false))
                 (set_db_calls (db_calls s ++ [Close]) s)).

Definition disconnect : M state unit :=
  let! live := gets (λ s, is_live (connection s)) in
  if live then
    let! _ := connection_close in
    logging INFO "Database connection closed" None
  else ret tt.

Definition deployment_record (timestamp sql_file : string) : json :=
  JObject [("timestamp", JString timestamp);
           ("sql_file", JString sql_file);
           ("status", JString "success")].

Definition _record_deployment (sql_file : string) : M state unit :=
  let! timestamp := now_isoformat in
  let record := deployment_record timestamp sql_file in
  let! f := open_rw deployment_history_file in
  let! history := json_load f in
  let! history := append history record in
  rewrite_json deployment_history_file history.

Definition get_deployment_history : M state json :=
  let! f := open_r deployment_history_file in
  json_load f.

(** The body of [for command in sql_commands]. *)
Definition run_command (command : string) : M state unit :=
  if truthy (strip command) then
    let! _ := driver (Execute command) in
    driver Commit
  else ret tt.

(** The [try] statement of [execute_sql_file] with its [except Error]
    clause. *)
Definition execute_sql_file_try (sql_file : string) : M state bool :=
  try_except
    (let! f := open_r sql_file in
     let sql_commands := split ";"%char (read f) in
     let! _ := driver Cursor in
     let! _ := for_each sql_commands run_command in
     let! _ := driver CursorClose in
     let! _ := _record_deployment sql_file in
     let! _ := logging INFO ("Successfully executed SQL file: " +:+
                             sql_file) None in
     ret true)
    (on_Error (λ e,
       let! _ := logging ERROR ("Error executing SQL file " +:+
                                sql_file +:+ ": ") (Some e) in
       ret false)).

Definition execute_sql_file (sql_file : string) : M state bool :=
  let! live := gets (λ s, is_live (connection s)) in
  let! connected := (if negb live then connect else ret true) in
  if negb connected then ret false
  else execute_sql_file_try sql_file.

End Script.

(** *** Vocabulary of the specification *)

(** The candidate statements of a script that are neither empty nor
    white space only, in the order of the text. *)
Definition statements (text : string) : list string :=
  filter (λ candidate, blank candidate = false) (split ";"%char text).

(** Executing statements one by one, a commit after each. *)
Definition statement_calls (stmts : list string) : list db_call :=
  stmts ≫= λ stmt, [Execute stmt; Commit].

(** The call [execute_sql_file] starts with when it has no live
    connection. *)
Definition connect_calls (s : state) : list db_call :=
  if is_live (connection s) then [] else [Connect].

(** The driver raises on none of [calls], made in turn after [made]. *)
Fixpoint accepted (E : env) (made calls : list db_call) : Prop :=
  match calls with
  | [] => True
  | c :: rest => driver_error E made c = None ∧ accepted E (made ++ [c]) rest
  end.

(** [e] is an error of the driver: some call made it raise. *)
Definition driver_raised (E : env) (e : exn) : Prop :=
  ∃ made c msg, e = MySQLError msg ∧ driver_error E made c = Some msg.

(** The value [json.load] finds in a file. *)
Definition parsed (E : env) (c : contents) : option json :=
  match c with
  | JsonDump v => Some v
  | Text t => json_loads E t
  end.

(** The history document is well formed and holds [entries]: the file is
    there, can be read and updated, and parses as a list. *)
Definition history_is (E : env) (s : state) (entries : list json) : Prop :=
  ∃ f, files s !! deployment_history_file = Some f ∧
       readable f = true ∧ writable f = true ∧
       parsed E (data f) = Some (JArray entries).

(** [entry[key]] on a [dict]. *)
Fixpoint assoc (key : string) (members : list (string * json)) : option json :=
  match members with
  | [] => None
  | (k, v) :: rest => if decide (k = key) then Some v else assoc key rest
  end.

Definition field (key : string) (entry : json) : option json :=
  match entry with
  | JObject members => assoc key members
  | _ => None
  end.

End Deploy.

(** ** Concrete runs *)

Module Sample.

Definition nl : string := String "010" "".

(** Output of [SHOW DATABASES] on a server with two user schemas. *)
Definition listing : string :=
  "Database" +:+ nl +:+ "information_schema" +:+ nl +:+ "shop" +:+ nl +:+
  "mysql" +:+ nl +:+ "hr" +:+ nl +:+ "performance_schema" +:+ nl +:+
  "sys" +:+ nl.

Definition tick (k : nat) : Backup.datetime :=
  Backup.DateTime 2024 3 5 12 0 (Z.of_nat k).

(** The listing succeeds, the first dump fails, the others succeed. *)
Definition backup_env : Backup.env :=
  Backup.Env tick
    (λ k _, match k with
            | 0 => Backup.Exited 0 listing
            | 1 => Backup.Exited 2 "-- partial dump"
            | _ => Backup.Exited 0 "-- dump"
            end)
    (λ _, None).

(** The [mysql] client is not installed. *)
Definition no_mysql_env : Backup.env :=
  Backup.Env tick
    (λ _ _, Backup.NotStarted (FileNotFoundError "mysql"))
    (λ _, None).

(** The server refuses the listing. *)
Definition refusing_env : Backup.env :=
  Backup.Env tick (λ _ _, Backup.Exited 1 "") (λ _, None).

(** Every child process succeeds. *)
Definition dump_env : Backup.env :=
  Backup.Env tick (λ _ _, Backup.Exited 0 "-- dump") (λ _, None).

Definition backup_world : Backup.world := Backup.World ∅ 0 0 [].

(** A server that rejects one statement and accepts everything else. *)
Definition deploy_env : Deploy.env :=
  Deploy.Env
    (λ k, "2024-03-05T12:00:0" +:+ String (Backup.digit (Z.of_nat k)) "")
    (λ _ c, match c with
            | Deploy.Execute " DROP TABLE missing" =>
                Some "1051 (42S02): Unknown table"
            | _ => None
            end)
    (λ _, None)
    (λ _, "")
    (λ _, None).

Definition empty_history : Deploy.file :=
  Deploy.File true true (Deploy.JsonDump (Deploy.JArray [])).

Definition script (text : string) : Deploy.file :=
  Deploy.File true false (Deploy.Text text).

Definition good_sql : string :=
  "ALTER TABLE t ADD COLUMN c INT;" +:+ nl +:+ "  ;" +:+
  "UPDATE t SET c = 0;" +:+ nl.

Definition bad_sql : string :=
  "CREATE TABLE u (id INT); DROP TABLE missing; CREATE TABLE v (id INT);".

(** A fresh deployer next to an empty history and two scripts. *)
Definition deploy_state : Deploy.state :=
  Deploy.State None
    (<["deployment_history.json" := empty_history]>
       (<["add_column.sql" := script good_sql]>
          (<["broken.sql" := script bad_sql]> ∅)))
    0 [] [].

End Sample.

(** ** Entry points and the rest of the scripts *)

Module BackupMain.
Import Backup.

Definition nl : string := String "010" "".

(** What [mysql -e 'SHOW DATABASES;'] prints in batch mode: a header line,
    then one schema name per line. *)
Definition batch_output (names : list string) : string :=
  join nl ("Database" :: names) +:+ nl.

(** The process around the [MySQLBackup] object: the environment
    variables, the world of the backup methods, and [os.makedirs] on the
    paths it refuses. *)
Record host := Host {
  environ : string → option string;
  outside : Backup.env;
  makedirs_error : string → option exn
}.

Record process := Process {
  proc_world : Backup.world;
  proc_dirs : gset string
}.

(** A method of [MySQLBackup] run inside the process. *)
Definition in_world {A} (m : M Backup.world A) : M process A :=
  λ p, let '(w', r) := m (proc_world p) in (Process w' (proc_dirs p), r).

(** [os.getenv(name, default)] *)
Definition getenv (H : host) (name default : string) : string :=
  from_option id default (environ H name).

(** The initial segments of a list, the empty one first. *)
Fixpoint inits {A} (l : list A) : list (list A) :=
  match l with
  | [] => [[]]
  | x :: l' => [] :: map (cons x) (inits l')
  end.

(** The directories of [path], outermost first, [path] itself last. *)
Definition path_and_parents (path : string) : list string :=
  filter (λ d, truthy d = true) (map (join "/") (inits (split "/"%char path))).

Section Main.
Variable H : host.

(** [os.path.exists(path)] *)
Definition os_path_exists (path : string) : M process bool :=
  gets (λ p, bool_decide (path ∈ proc_dirs p) ||
             bool_decide (is_Some (files (proc_world p) !! path))).

(** [os.makedirs(path)], called on a path that does not exist. *)
Definition os_makedirs (path : string) : M process unit :=
  λ p, if negb (truthy path) then (p, Raise (FileNotFoundError path))
       else match makedirs_error H path with
            | Some e => (p, Raise e)
            | None =>
                (Process (proc_world p)
                   (list_to_set (path_and_parents path) ∪ proc_dirs p),
                 Ok tt)
            end.

(** [MySQLBackup.__init__]: the four fields are kept by the caller. *)
Definition __init__ (backup_dir : string) : M process unit :=
  let! found := os_path_exists backup_dir in
  if negb found then
    let! _ := os_makedirs backup_dir in
    in_world (logging INFO ("Created backup directory: " +:+ backup_dir) None)
  else ret tt.

(** [main()]: the value is the exit status of the process, 0 when [main]
    returns and 1 after [sys.exit(1)]. Every exception of the model is an
    [Exception]. *)
Definition main : M process Z :=
  let MYSQL_HOST := getenv H "MYSQL_HOST" "localhost" in
  let MYSQL_USER := getenv H "MYSQL_USER" "student" in
  let MYSQL_PASSWORD := getenv H "MYSQL_PASSWORD" "StrongPassword123" in
  let BACKUP_DIR := getenv H "BACKUP_DIR" "mysql_backups" in
  try_except
    (let! _ := __init__ BACKUP_DIR in
     let! backup_files :=
       in_world (backup_all_databases (outside H) MYSQL_HOST MYSQL_USER
                   MYSQL_PASSWORD BACKUP_DIR) in
     let! _ :=
       match backup_files with
       | _ :: _ =>
           in_world (logging INFO ("Successfully created " +:+
                       pretty (length backup_files) +:+ " backups") None)
       | [] => in_world (logging WARNING "No backups were created" None)
       end in
     ret 0%Z)
    (λ e, Some (let! _ := in_world (logging ERROR "An error occurred: "
                                      (Some e)) in
                ret 1%Z)).
End Main.

End BackupMain.

Module DeployMain.
Import Deploy.

(** [os.getenv(name, default)] on the environment [environ]. *)
Definition getenv (environ : string → option string) (name default : string)
  : string :=
  from_option id default (environ name).

Section Main.
Variable E : env.
Variable environ : string → option string.

(** [os.path.exists(path)] *)
Definition os_path_exists (path : string) : M state bool :=
  gets (λ s, bool_decide (is_Some (files s !! path))).

(** [DatabaseDeployer.__init__]: [self.connection = None], then the
    history file is created when it is missing; the error of a history
    file that cannot be created comes out of the constructor. *)
Definition __init__ : M state unit :=
  let! _ := modify (set_connection None) in
  _init_deployment_history E.

(** [main()] with [sys.argv = argv]: the value is the exit status of the
    process, 0 when [main] returns and 1 after [sys.exit(1)]. The exit
    raised under the [try] is no [Exception], so the [except] clause lets
    it through, and the [finally] clause runs before the process ends.
    That clause disconnects [if 'deployer' in locals()], which holds
    exactly when the constructor has returned: the one [try] of the source
    is written here as the constructor under the [except] clause, followed
    when it returns by the deployment under the same clause and the
    [disconnect] of the [finally] clause. *)
Definition main (argv : list string) : M state Z :=
  let MYSQL_DATABASE := getenv environ "MYSQL_DATABASE" "assignment1" in
  if negb (truthy MYSQL_DATABASE) then
    let! _ := logging ERROR "Database name not specified" None in
    ret 1%Z
  else
    match argv with
    | [_; sql_file] =>
        let! found := os_path_exists sql_file in
        if negb found then
          let! _ := logging ERROR ("SQL file not found: " +:+ sql_file) None in
          ret 1%Z
        else
          let! constructed :=
            try_except
              (let! _ := __init__ in
               ret true)
              (λ e, Some (let! _ := logging ERROR "An error occurred: "
                                            (Some e) in
                          ret false)) in
          if negb constructed then ret 1%Z
          else
            let! status :=
              try_except
                (let! deployed :=
                   execute_sql_file E MYSQL_DATABASE sql_file in
                 if deployed then
                   let! _ := logging INFO "Deployment completed successfully"
                                     None in
                   ret 0%Z
                 else
                   let! _ := logging ERROR "Deployment failed" None in
                   ret 1%Z)
                (λ e, Some (let! _ := logging ERROR "An error occurred: "
                                              (Some e) in
                            ret 1%Z)) in
            let! _ := disconnect in
            ret status
    | _ =>
        let! _ := logging ERROR "Please provide SQL file path as argument"
                          None in
        ret 1%Z
    end.
End Main.

(** Every run of [m] takes a state to one that is [R]-related to it. *)
Definition respects {A} (R : state → state → Prop) (m : M state A) : Prop :=
  ∀ s s' r, m s = (s', r) → R s s'.

(** A driver call the deployer may make while it runs a script: no
    closing of the connection, and only statements that are not blank and
    hold no separator. *)
Definition script_call (c : db_call) : Prop :=
  match c with
  | Close => False
  | Execute stmt => blank stmt = false ∧ contains ";"%char stmt = false
  | _ => True
  end.

(** From [s] to [s'] the driver has only been called further, with calls
    that satisfy [P]. *)
Definition calls_extended (P : db_call → Prop) (s s' : state) : Prop :=
  ∃ extra, db_calls s' = db_calls s ++ extra ∧ Forall P extra.

(** From [s] to [s'] no file but the history document has changed, and a
    well-formed history has only gained entries at its end. *)
Definition history_kept (E : env) (s s' : state) : Prop :=
  (∀ path, path ≠ deployment_history_file →
           files s' !! path = files s !! path) ∧
  (∀ entries, history_is E s entries →
              ∃ more, history_is E s' (entries ++ more)).

(** A script made of white space and separators only. *)
Fixpoint no_statement (text : string) : bool :=
  match text with
  | "" => true
  | String c text' =>
      (isspace c || bool_decide (c = ";"%char)) && no_statement text'
  end.

End DeployMain.

(** ** test_connection.py *)

Module Probe.

(** Calls made on the driver, in order. *)
Inductive call :=
| Connect
| GetServerInfo
| Cursor
| Execute (operation : string)
| FetchOne
| CursorClose
| Close.

(** The outside world: the call that raises [mysql.connector.Error] after
    the calls made so far; what [is_connected()] answers on the new
    connection; the server version; and the only column of the row that
    [select database()] returns, [None] for SQL [NULL]. *)
Record env := Env {
  driver_error : list call → call → option string;
  is_connected : bool;
  server_info : string;
  current_database : option string
}.

Record state := State {
  calls : list call;
  stdout : list string
}.

Section Script.
Variable E : env.

(** [print(line)] *)
Definition print (line : string) : M state unit :=
  modify (λ s, State (calls s) (stdout s ++ [line])).

(** One call on the driver that may raise [mysql.connector.Error]. *)
Definition driver (c : call) : M state unit :=
  λ s, let s' := State (calls s ++ [c]) (stdout s) in
       match driver_error E (calls s) c with
       | Some msg => (s', Raise (MySQLError msg))
       | None => (s', Ok tt)
       end.

(** [connection.close()] raises nothing. *)
Definition connection_close : M state unit :=
  modify (λ s, State (calls s ++ [Close]) (stdout s)).

(** [str(x)] on a column value. *)
Definition str (x : option string) : string :=
  from_option id "None" x.

Definition on_Error {A} (h : exn → M state A) : exn → option (M state A) :=
  λ e, match e with MySQLError _ => Some (h e) | _ => None end.

(** [str(e)] for the exceptions of the driver. *)
Definition str_exn (e : exn) : string :=
  match e with MySQLError msg => msg | _ => "" end.

Definition test_mysql_connection : M state unit :=
  try_except
    (let! _ := driver Connect in
     if is_connected E then
       let! _ := driver GetServerInfo in
       let db_info := server_info E in
       let! _ := print ("Connected to MySQL Server version " +:+ db_info) in
       let! _ := driver Cursor in
       let! _ := driver (Execute "select database();") in
       let! _ := driver FetchOne in
       let database := current_database E in
       let! _ := print ("Connected to database: " +:+ str database) in
       let! _ := driver CursorClose in
       let! _ := connection_close in
       print "MySQL connection is closed"
     else ret tt)
    (on_Error (λ e, print ("Error while connecting to MySQL: " +:+ str_exn e))).
End Script.

End Probe.

(** ** More concrete runs *)

Module Scenario.

(** The first child is the listing of [names]; the dumps that follow exit
    with the statuses of [statuses], then with 0. *)
Definition listing_env (names : list string) (statuses : list Z)
  : Backup.env :=
  Backup.Env Sample.tick
    (λ k _, match k with
            | 0 => Backup.Exited 0 (BackupMain.batch_output names)
            | S j => Backup.Exited (default 0%Z (statuses !! j)) "-- dump"
            end)
    (λ _, None).

(** The [mysql] binary is not installed. *)
Definition no_binary_env : Backup.env :=
  Backup.Env Sample.tick
    (λ _ cmd, Backup.NotStarted (FileNotFoundError (default "" (head cmd))))
    (λ _, None).

(** The backup directory is read-only. *)
Definition read_only_env : Backup.env :=
  Backup.Env Sample.tick
    (λ k _, match k with
            | 0 => Backup.Exited 0 (BackupMain.batch_output ["shop"; "hr"])
            | _ => Backup.Exited 0 "-- dump"
            end)
    (λ path, Some (PermissionError path)).

(** The clock stands still within one second. *)
Definition same_second_env : Backup.env :=
  Backup.Env (λ _, Backup.DateTime 2024 3 5 12 0 0)
    (λ k _, match k with
            | 0 => Backup.Exited 0 "-- first dump"
            | _ => Backup.Exited 3 "-- second"
            end)
    (λ _, None).

Definition fresh_world : Backup.world := Backup.World ∅ 0 0 [].

(** A server that refuses every connection. *)
Definition unreachable_env : Deploy.env :=
  Deploy.Env (λ _, "2024-03-05T12:00:00")
    (λ _ c, match c with
            | Deploy.Connect => Some "2003 (HY000): Can't connect"
            | _ => None
            end)
    (λ _, None) (λ _, "") (λ _, None).

(** A server that accepts every statement but fails every commit. *)
Definition no_commit_env : Deploy.env :=
  Deploy.Env (λ _, "2024-03-05T12:00:00")
    (λ _ c, match c with
            | Deploy.Commit => Some "1180 (HY000): Got error during COMMIT"
            | _ => None
            end)
    (λ _, None) (λ _, "") (λ _, None).

(** The scripts of [Sample.deploy_state], before any deployer has run:
    there is no history document yet. *)
Definition first_run_state : Deploy.state :=
  Deploy.State None
    (<["add_column.sql" := Sample.script Sample.good_sql]>
       (<["blank.sql" := Sample.script " ; ;"]> ∅))
    0 [] [].

(** The history document has been overwritten with a JSON object. *)
Definition clobbered_state : Deploy.state :=
  Deploy.State None
    (<["deployment_history.json" :=
         Deploy.File true true (Deploy.JsonDump (Deploy.JObject []))]>
       (<["add_column.sql" := Sample.script Sample.good_sql]> ∅))
    0 [] [].

(** A server whose cursor works but whose query fails. *)
Definition probe_env : Probe.env :=
  Probe.Env
    (λ _ c, match c with
            | Probe.Execute _ => Some "1045 (28000): Access denied"
            | _ => None
            end)
    true "8.0.36" (Some "assignment1").

Definition healthy_probe_env : Probe.env :=
  Probe.Env (λ _ _, None) true "8.0.36" None.

End Scenario.

(** ** Facts about the Python built-ins *)

Module PyFacts.

Lemma str_app_nil_l (s : string) : "" +:+ s = s.
Proof. reflexivity. Qed.

Lemma str_app_cons c (s t : string) : String c s +:+ t = String c (s +:+ t).
Proof. reflexivity. Qed.

Lemma str_app_nil_r (s : string) : s +:+ "" = s.
Proof.
  induction s as [|c s IH]; [done|]. by rewrite str_app_cons, IH.
Qed.

Lemma str_app_assoc (a b c : string) : (a +:+ b) +:+ c = a +:+ b +:+ c.
Proof.
  induction a as [|x a IH]; [done|]. by rewrite !str_app_cons, IH.
Qed.

Lemma str_app_inj_l (a b c : string) : a +:+ b = a +:+ c → b = c.
Proof. apply String.app_inj. Qed.

Lemma str_app_empty (a b : string) : a +:+ b = "" → a = "" ∧ b = "".
Proof. destruct a; [done | rewrite str_app_cons; discriminate]. Qed.

(** Running the monad step by step. *)
Section Run.
Context {S A B : Type}.
Implicit Types (m : M S A) (k : A → M S B).

Lemma bind_ok m k s s' a : m s = (s', Ok a) → bind m k s = k a s'.
Proof. unfold bind. by intros ->. Qed.

Lemma bind_raise m k s s' e :
  m s = (s', Raise e) → bind m k s = (s', Raise e).
Proof. unfold bind. by intros ->. Qed.

Lemma try_ok m (h : exn → option (M S A)) s s' a :
  m s = (s', Ok a) → try_except m h s = (s', Ok a).
Proof. unfold try_except. by intros ->. Qed.

Lemma try_caught m (h : exn → option (M S A)) s s' e handler :
  m s = (s', Raise e) → h e = Some handler →
  try_except m h s = handler s'.
Proof. unfold try_except. by intros -> ->. Qed.

Lemma try_uncaught m (h : exn → option (M S A)) s s' e :
  m s = (s', Raise e) → h e = None →
  try_except m h s = (s', Raise e).
Proof. unfold try_except. by intros -> ->. Qed.

Lemma bind_inv m k s s' (r : result B) :
  bind m k s = (s', r) →
  (∃ s1 a, m s = (s1, Ok a) ∧ k a s1 = (s', r)) ∨
  (∃ e, m s = (s', Raise e) ∧ r = Raise e).
Proof.
  unfold bind. destruct (m s) as [s1 [a|e]].
  - intros H. left. by exists s1, a.
  - intros [= <- <-]. right. by exists e.
Qed.
End Run.

Lemma split_not_nil sep s : split sep s ≠ [].
Proof.
  destruct s as [|c s]; cbn; [done|].
  case_decide; [done|]. by destruct (split sep s).
Qed.

(** [split] loses nothing: joining the pieces with the separator gives
    the text back. *)
Lemma join_split sep s : join (String sep "") (split sep s) = s.
Proof.
  induction s as [|c s IH]; cbn; [done|].
  case_decide as Hc.
  - subst c. pose proof (split_not_nil sep s) as Hne.
    destruct (split sep s) as [|p ps]; [done|].
    cbn [join] in *. by rewrite str_app_nil_l, str_app_cons, str_app_nil_l, IH.
  - destruct (split sep s) as [|p ps] eqn:Hs.
    + by destruct (split_not_nil sep s).
    + destruct ps as [|q qs]; cbn [join] in *;
        by rewrite <- IH, ?str_app_cons.
Qed.

Lemma split_pieces_free sep s :
  Forall (λ piece, contains sep piece = false) (split sep s).
Proof.
  induction s as [|c s IH]; cbn.
  - by repeat constructor.
  - case_decide as Hc; [by constructor|].
    pose proof (split_not_nil sep s) as Hne.
    destruct (split sep s) as [|p ps]; [done|].
    inversion IH as [|? ? Hp Hps]; subst. constructor; [|done].
    cbn. by rewrite bool_decide_eq_false_2.
Qed.

Lemma rstrip_empty_iff s : rstrip s = "" ↔ blank s = true.
Proof.
  induction s as [|c s IH]; cbn; [done|].
  destruct (rstrip s) eqn:Hr.
  - destruct (isspace c); cbn; [|split; [discriminate | done]].
    by rewrite <- IH.
  - split; [discriminate|]. intros [_ Hb]%andb_prop.
    apply IH in Hb. discriminate.
Qed.

Lemma blank_lstrip s : blank (lstrip s) = blank s.
Proof.
  induction s as [|c s IH]; cbn; [done|].
  destruct (isspace c) eqn:Hc; cbn; [done | by rewrite Hc].
Qed.

(** [command.strip()] is falsy exactly on the empty string and on
    strings of white space only. *)
Lemma truthy_strip s : truthy (strip s) = negb (blank s).
Proof.
  unfold strip. rewrite <- (blank_lstrip s).
  destruct (rstrip (lstrip s)) eqn:Hr.
  - apply rstrip_empty_iff in Hr. by rewrite Hr.
  - destruct (blank (lstrip s)) eqn:Hb; [|done].
    apply rstrip_empty_iff in Hb. congruence.
Qed.

Lemma truthy_app_r a b : truthy b = true → truthy (a +:+ b) = true.
Proof. destruct a, b; rewrite ?str_app_cons; done. Qed.

Lemma os_path_join_relative a b :
  startswith "/"%char b = false →
  os_path_join a b =
    (if negb (truthy a) || endswith "/"%char a then a else a +:+ "/") +:+ b.
Proof.
  intros Hb. unfold os_path_join. rewrite Hb.
  destruct (negb (truthy a) || endswith "/"%char a); [done|].
  by rewrite str_app_assoc.
Qed.

Lemma os_path_join_truthy a b : truthy b = true → truthy (os_path_join a b) = true.
Proof.
  intros Hb. unfold os_path_join.
  destruct (startswith "/"%char b); [done|].
  destruct (negb (truthy a) || endswith "/"%char a).
  - by apply truthy_app_r.
  - apply truthy_app_r. by apply truthy_app_r.
Qed.

(** [os.path.join a] is injective in its second argument. *)
Lemma os_path_join_inj a b b' :
  startswith "/"%char b = startswith "/"%char b' →
  os_path_join a b = os_path_join a b' → b = b'.
Proof.
  intros Hs. unfold os_path_join. rewrite <- Hs.
  destruct (startswith "/"%char b); [done|].
  destruct (negb (truthy a) || endswith "/"%char a); intros H.
  - by apply str_app_inj_l in H.
  - apply str_app_inj_l in H. by apply str_app_inj_l in H.
Qed.

End PyFacts.

(** ** Facts about backup_script.py *)

Module BackupFacts.
Import Backup PyFacts.

(** *** The timestamp *)

Lemma digit_code n : N_of_ascii (digit n) = Z.to_N (48 + n mod 10).
Proof.
  unfold digit. apply N_ascii_embedding.
  pose proof (Z.mod_pos_bound n 10). lia.
Qed.

Lemma digit_is_digit n : is_digit (digit n) = true.
Proof.
  unfold is_digit. rewrite digit_code.
  pose proof (Z.mod_pos_bound n 10).
  apply andb_true_intro; split; apply N.leb_le; lia.
Qed.

Lemma digit_inj a b : digit a = digit b → (a mod 10 = b mod 10)%Z.
Proof.
  intros H. apply (f_equal N_of_ascii) in H. rewrite !digit_code in H.
  pose proof (Z.mod_pos_bound a 10). pose proof (Z.mod_pos_bound b 10). lia.
Qed.

Lemma pad2_inj n m :
  (0 ≤ n < 100)%Z → (0 ≤ m < 100)%Z → pad2 n = pad2 m → n = m.
Proof.
  intros Hn Hm H. unfold pad2 in H.
  injection H as H1%digit_inj H2%digit_inj.
  Z.div_mod_to_equations. lia.
Qed.

Lemma pad4_inj n m :
  (0 ≤ n < 10000)%Z → (0 ≤ m < 10000)%Z → pad4 n = pad4 m → n = m.
Proof.
  intros Hn Hm H. unfold pad4, pad2 in H.
  injection H as H1%digit_inj H2%digit_inj H3%digit_inj H4%digit_inj.
  Z.div_mod_to_equations. lia.
Qed.

(** [strftime] written out character by character. *)
Lemma strftime_chars d :
  strftime d =
    String (digit (year d / 1000)) (String (digit (year d / 100))
    (String (digit (year d / 10)) (String (digit (year d))
    (String (digit (month d / 10)) (String (digit (month d))
    (String (digit (day d / 10)) (String (digit (day d))
    (String "_"
    (String (digit (hour d / 10)) (String (digit (hour d))
    (String (digit (minute d / 10)) (String (digit (minute d))
    (String (digit (second d / 10)) (String (digit (second d)) "")))))))))))))).
Proof. reflexivity. Qed.

Lemma strftime_is_timestamp d : is_timestamp (strftime d) = true.
Proof.
  rewrite strftime_chars. unfold is_timestamp. cbn.
  by rewrite !digit_is_digit.
Qed.

(** Two wall-clock times that differ in some field down to the second
    are printed differently. *)
Lemma strftime_inj d1 d2 :
  valid_datetime d1 → valid_datetime d2 →
  strftime d1 = strftime d2 → d1 = d2.
Proof.
  intros (Hy1 & Hm1 & Hd1 & Hh1 & Hi1 & Hs1) (Hy2 & Hm2 & Hd2 & Hh2 & Hi2 & Hs2) H.
  rewrite !strftime_chars in H.
  injection H as Y1 Y2 Y3 Y4 M1 M2 D1 D2 h1 h2 m1 m2 s1 s2.
  assert (year d1 = year d2) by (apply pad4_inj; [lia | lia | unfold pad4, pad2; congruence]).
  assert (month d1 = month d2) by (apply pad2_inj; [lia | lia | unfold pad2; congruence]).
  assert (day d1 = day d2) by (apply pad2_inj; [lia | lia | unfold pad2; congruence]).
  assert (hour d1 = hour d2) by (apply pad2_inj; [lia | lia | unfold pad2; congruence]).
  assert (minute d1 = minute d2) by (apply pad2_inj; [lia | lia | unfold pad2; congruence]).
  assert (second d1 = second d2) by (apply pad2_inj; [lia | lia | unfold pad2; congruence]).
  destruct d1, d2; simplify_eq/=; done.
Qed.

(** *** [get_databases] *)

Section Listing.
Variable E : env.
Variables host user password : string.

Lemma get_databases_exited w rc out :
  child E (spawned w) (mysql_cmd host user password) = Exited rc out →
  get_databases E host user password w =
    let w1 := World (files w) (clock_reads w) (S (spawned w)) (log w) in
    if decide (rc = 0%Z)
    then (w1, Ok (filter (λ db, db ∉ denylist)
                         (tail (split "010"%char
                                  (strip (universal_newlines out))))))
    else (World (files w) (clock_reads w) (S (spawned w))
                (log w ++ [LogRecord ERROR "Error getting databases: "
                                     (Some (CalledProcessError rc))]),
          Ok []).
Proof.
  intros H. unfold get_databases, try_except, bind, subprocess_run.
  rewrite H. cbn. by case_decide.
Qed.

Lemma get_databases_undecodable w rc out :
  child E (spawned w) (mysql_cmd host user password) = Undecodable rc out →
  get_databases E host user password w =
    (World (files w) (clock_reads w) (S (spawned w)) (log w),
     Raise UnicodeDecodeError).
Proof.
  intros H. unfold get_databases, try_except, bind, subprocess_run.
  by rewrite H.
Qed.

Lemma get_databases_not_started w e :
  child E (spawned w) (mysql_cmd host user password) = NotStarted e →
  (∀ rc, e ≠ CalledProcessError rc) →
  get_databases E host user password w =
    (World (files w) (clock_reads w) (S (spawned w)) (log w), Raise e).
Proof.
  intros H He. unfold get_databases, try_except, bind, subprocess_run.
  rewrite H. cbn. destruct e; try done. by destruct (He returncode).
Qed.

End Listing.

(** C5, as stated, fails: the [except] clause names
    [subprocess.CalledProcessError] only, so when the [mysql] client cannot
    be started the [FileNotFoundError] of [subprocess.run] comes out of
    [get_databases], which returns no list at all. *)
Lemma get_databases_raises_without_client :
  get_databases Sample.no_mysql_env "localhost" "student" "pw"
    Sample.backup_world
  = (World ∅ 0 1 [], Raise (FileNotFoundError "mysql")).
Proof. reflexivity. Qed.

(** C5, amended. When the listing command runs, writes text and exits
    with a non-zero status ([subprocess.CalledProcessError], the one error
    the code catches), [get_databases] raises nothing: it returns the empty
    list, after logging the error, and leaves the files alone. For these
    errors the empty list is all the caller gets: a listing that succeeds
    and prints the header only returns the same value. The other errors of
    the command are raised: the error of a client that cannot be started,
    and the decoding error of an output that is not text. *)
Theorem get_databases_fails_soft (E : env) (host user password : string)
    (w : world) (rc : Z) (out : string) :
  child E (spawned w) (mysql_cmd host user password) = Exited rc out →
  rc ≠ 0%Z →
  ∃ w', get_databases E host user password w = (w', Ok []) ∧
        files w' = files w ∧
        log w' = log w ++ [LogRecord ERROR "Error getting databases: "
                                     (Some (CalledProcessError rc))] ∧
        (∀ E', child E' (spawned w) (mysql_cmd host user password)
                 = Exited 0 "Database" →
               (get_databases E' host user password w).2 = Ok []) ∧
        (∀ E' e, child E' (spawned w) (mysql_cmd host user password)
                   = NotStarted e →
                 (∀ rc', e ≠ CalledProcessError rc') →
                 (get_databases E' host user password w).2 = Raise e) ∧
        (∀ E' rc' raw, child E' (spawned w) (mysql_cmd host user password)
                         = Undecodable rc' raw →
                       (get_databases E' host user password w).2
                       = Raise UnicodeDecodeError).
Proof.
  intros H Hrc. rewrite (get_databases_exited _ _ _ _ _ _ _ H).
  cbn. rewrite decide_False by done.
  eexists; repeat split.
  - intros E' H'. by rewrite (get_databases_exited _ _ _ _ _ _ _ H').
  - intros E' e H' He. by rewrite (get_databases_not_started _ _ _ _ _ _ H' He).
  - intros E' rc' raw H'.
    by rewrite (get_databases_undecodable _ _ _ _ _ _ _ H').
Qed.

Lemma get_databases_fails_soft_witness :
  ∃ w', get_databases Sample.refusing_env "localhost" "student" "pw"
          Sample.backup_world = (w', Ok []) ∧
        log w' = [LogRecord ERROR "Error getting databases: "
                            (Some (CalledProcessError 1))].
Proof.
  destruct (get_databases_fails_soft Sample.refusing_env "localhost"
              "student" "pw" Sample.backup_world 1 "")
    as (w' & Hrun & _ & Hlog & _); [reflexivity | lia |].
  exists w'. split; [exact Hrun | exact Hlog].
Defined.

(** C6. Whatever the listing command prints and however it exits,
    [get_databases] returns a list, and none of [information_schema],
    [performance_schema], [mysql], [sys] is in it. *)
Theorem get_databases_excludes_system_schemas (E : env)
    (host user password : string) (w : world) (rc : Z) (out : string) :
  child E (spawned w) (mysql_cmd host user password) = Exited rc out →
  ∃ w' dbs, get_databases E host user password w = (w', Ok dbs) ∧
            ("information_schema" ∉ dbs) ∧ ("performance_schema" ∉ dbs) ∧
            ("mysql" ∉ dbs) ∧ ("sys" ∉ dbs).
Proof.
  intros H. rewrite (get_databases_exited _ _ _ _ _ _ _ H). cbn.
  case_decide.
  - eexists _, _; split; [reflexivity|].
    repeat split; intros [Hd _]%list_elem_of_filter;
      apply Hd; unfold denylist; set_solver.
  - eexists _, _; split; [reflexivity|]. repeat split; apply not_elem_of_nil.
Qed.

Lemma get_databases_excludes_system_schemas_witness :
  ∃ w', get_databases Sample.backup_env "localhost" "student" "pw"
          Sample.backup_world = (w', Ok ["shop"; "hr"]).
Proof.
  destruct (get_databases_excludes_system_schemas Sample.backup_env
              "localhost" "student" "pw" Sample.backup_world 0 Sample.listing)
    as (w' & dbs & Hrun & _); [reflexivity|].
  exists w'. rewrite Hrun. f_equal. f_equal.
  vm_compute in Hrun. by injection Hrun as _ <-.
Defined.

(** *** [create_backup] *)

Section Dump.
Variable E : env.
Variables host user password backup_dir : string.

Lemma create_backup_exited w database rc out :
  let path := backup_path backup_dir database (clock E (clock_reads w)) in
  let fs := <[path := out]> (<[path := ""]> (files w)) in
  open_w_error E path = None →
  child E (spawned w) (mysqldump_cmd host user password database)
    = Exited rc out →
  create_backup E host user password backup_dir database w =
    if decide (rc = 0%Z)
    then (World fs (S (clock_reads w)) (S (spawned w))
            (log w ++ [LogRecord INFO
               ("Successfully created backup for " +:+ database +:+
                ": " +:+ path) None]),
          Ok (Some path))
    else (World fs (S (clock_reads w)) (S (spawned w))
            (log w ++ [LogRecord ERROR
               ("Error creating backup for " +:+ database +:+ ": ")
               (Some (CalledProcessError rc))]),
          Ok None).
Proof.
  intros path fs Hopen Hchild.
  unfold create_backup, bind, datetime_now, try_except, open_w,
    subprocess_run.
  fold (backup_path backup_dir database (clock E (clock_reads w))).
  fold path. rewrite Hopen. cbn. rewrite Hchild.
  by case_decide.
Qed.

Lemma file_name_truthy database now :
  truthy (database +:+ "_" +:+ strftime now +:+ ".sql") = true.
Proof. by apply truthy_app_r. Qed.

Lemma backup_path_truthy database now :
  truthy (backup_path backup_dir database now) = true.
Proof. apply os_path_join_truthy, file_name_truthy. Qed.

Lemma file_name_startswith database t1 t2 :
  startswith "/"%char (database +:+ "_" +:+ t1) =
  startswith "/"%char (database +:+ "_" +:+ t2).
Proof. by destruct database. Qed.

Lemma backup_path_inj database d1 d2 :
  valid_datetime d1 → valid_datetime d2 →
  backup_path backup_dir database d1 = backup_path backup_dir database d2 →
  d1 = d2.
Proof.
  intros Hv1 Hv2 H. unfold backup_path in H.
  apply os_path_join_inj in H; [|apply file_name_startswith].
  apply str_app_inj_l, str_app_inj_l in H.
  apply strftime_inj; [done..|].
  assert (String.length (strftime d1) = String.length (strftime d2)) as Hlen
    by (by rewrite !strftime_chars).
  revert H Hlen. generalize (strftime d1) (strftime d2).
  intros s1. induction s1 as [|c s1 IH]; intros [|c' s2]; cbn; try done.
  rewrite !str_app_cons. intros [= -> H] [= Hlen]. f_equal. by apply IH.
Qed.

Lemma backup_path_relative database now :
  startswith "/"%char database = false →
  backup_path backup_dir database now =
    directory_prefix backup_dir +:+ database +:+ "_" +:+ strftime now
      +:+ ".sql".
Proof.
  intros Hrel. unfold backup_path, directory_prefix.
  apply os_path_join_relative.
  destruct database as [|c database]; [done|]. by rewrite str_app_cons.
Qed.
End Dump.




(** *** [backup_all_databases] *)

Section Loop.
Variable E : env.
Variables host user password backup_dir : string.

Lemma backup_paths_cons c database rest :
  backup_paths E backup_dir c (database :: rest) =
    backup_path backup_dir database (clock E c)
      :: backup_paths E backup_dir (S c) rest.
Proof.
  unfold backup_paths. rewrite imap_cons, Nat.add_0_r. f_equal.
  apply imap_ext. intros j db _. cbn. by rewrite Nat.add_succ_r.
Qed.

Lemma dump_succeeds_tail sp database rest j :
  dump_succeeds E host user password sp (database :: rest) (S j) →
  dump_succeeds E host user password (S sp) rest j.
Proof.
  intros (db & out & Hdb & Hchild). exists db, out. split; [done|].
  by rewrite Nat.add_succ_r in Hchild.
Qed.

Lemma dump_fails_tail sp database rest j :
  dump_fails E host user password sp (database :: rest) (S j) →
  dump_fails E host user password (S sp) rest j.
Proof.
  intros (db & rc & out & Hdb & Hchild & Hrc). exists db, rc, out.
  split; [done|]. by rewrite Nat.add_succ_r in Hchild.
Qed.

Lemma successful_paths_all databases : ∀ c sp,
  (∀ j, j < length databases →
        dump_succeeds E host user password sp databases j) →
  successful_paths E host user password backup_dir c sp databases
    = backup_paths E backup_dir c databases.
Proof.
  induction databases as [|database rest IH]; intros c sp Hall; [done|].
  rewrite backup_paths_cons. cbn [successful_paths].
  destruct (Hall 0) as (db & out & [= <-] & Hchild); [cbn; lia|].
  rewrite Nat.add_0_r in Hchild. rewrite Hchild. cbn. f_equal.
  apply IH. intros j Hj. apply (dump_succeeds_tail sp database).
  apply Hall. cbn. lia.
Qed.

Lemma successful_paths_one_failure databases : ∀ c sp k,
  dump_fails E host user password sp databases k →
  (∀ j, j < length databases → j ≠ k →
        dump_succeeds E host user password sp databases j) →
  successful_paths E host user password backup_dir c sp databases
    = delete k (backup_paths E backup_dir c databases).
Proof.
  induction databases as [|database rest IH]; intros c sp k Hk Hothers.
  { by destruct Hk as (? & ? & ? & ? & _). }
  rewrite backup_paths_cons. cbn [successful_paths].
  destruct k as [|k].
  - destruct Hk as (db & rc & out & [= <-] & Hchild & Hrc).
    rewrite Nat.add_0_r in Hchild. rewrite Hchild.
    assert (match rc with
            | 0%Z => [backup_path backup_dir database (clock E c)]
            | _ => []
            end = []) as -> by (by destruct rc).
    cbn. apply successful_paths_all. intros j Hj.
    apply (dump_succeeds_tail sp database), Hothers; cbn; lia.
  - destruct (Hothers 0) as (db & out & [= <-] & Hchild); [cbn; lia | lia |].
    rewrite Nat.add_0_r in Hchild. rewrite Hchild. cbn. f_equal.
    apply IH.
    + by apply (dump_fails_tail sp database).
    + intros j Hj Hne. apply (dump_succeeds_tail sp database), Hothers;
        cbn; lia.
Qed.

(** The loop returns the paths of the dumps that exit with status 0,
    in order, as long as every file opens and every child starts. *)
Lemma backup_loop_run databases : ∀ w backup_files,
  (∀ j database, databases !! j = Some database →
     open_w_error E (backup_path backup_dir database
                       (clock E (clock_reads w + j))) = None) →
  (∀ j database, databases !! j = Some database →
     ∃ rc out, child E (spawned w + j)
                 (mysqldump_cmd host user password database)
               = Exited rc out) →
  ∃ w', backup_loop E host user password backup_dir databases
          backup_files w
        = (w', Ok (backup_files ++
                   successful_paths E host user password backup_dir
                     (clock_reads w) (spawned w) databases)).
Proof.
  induction databases as [|database rest IH]; intros w acc Hopen Hchild.
  { eexists. cbn. by rewrite List.app_nil_r. }
  cbn [backup_loop successful_paths]. unfold bind at 1.
  pose proof (Hopen 0 database eq_refl) as Hopen0.
  destruct (Hchild 0 database eq_refl) as (rc & out & Hchild0).
  rewrite Nat.add_0_r in Hopen0, Hchild0.
  rewrite (create_backup_exited E host user password backup_dir w database
             rc out Hopen0 Hchild0), Hchild0.
  set (fs := <[_ := out]> _).
  assert (∀ l acc',
    ∃ w', backup_loop E host user password backup_dir rest acc'
            (World fs (S (clock_reads w)) (S (spawned w)) l)
          = (w', Ok (acc' ++ successful_paths E host user password
                               backup_dir (S (clock_reads w))
                               (S (spawned w)) rest))) as Hrest.
  { intros l acc'. apply IH; cbn; intros j db Hdb.
    - specialize (Hopen (S j) db Hdb). by rewrite Nat.add_succ_r in Hopen.
    - destruct (Hchild (S j) db Hdb) as (rc' & out' & H').
      exists rc', out'. by rewrite Nat.add_succ_r in H'. }
  case_decide as Hrc.
  - subst rc. rewrite backup_path_truthy.
    destruct (Hrest (log w ++ [LogRecord INFO
               ("Successfully created backup for " +:+ database +:+ ": " +:+
                backup_path backup_dir database (clock E (clock_reads w)))
               None])
               (acc ++ [backup_path backup_dir database
                          (clock E (clock_reads w))])) as (w' & ->).
    exists w'. by rewrite <- (assoc_L (++)).
  - destruct (Hrest (log w ++ [LogRecord ERROR
               ("Error creating backup for " +:+ database +:+ ": ")
               (Some (CalledProcessError rc))]) acc) as (w' & ->).
    exists w'. by destruct rc.
Qed.
End Loop.



End BackupFacts.

(** ** Facts about deploy_changes_script.py *)

Module DeployFacts.
Import Deploy PyFacts.

Lemma statement_calls_cons stmt stmts :
  statement_calls (stmt :: stmts)
    = Execute stmt :: Commit :: statement_calls stmts.
Proof. reflexivity. Qed.

Lemma statement_calls_app pre post :
  statement_calls (pre ++ post) = statement_calls pre ++ statement_calls post.
Proof. apply bind_app. Qed.

Lemma accepted_app E made calls1 calls2 :
  accepted E made (calls1 ++ calls2) ↔
  accepted E made calls1 ∧ accepted E (made ++ calls1) calls2.
Proof.
  revert made. induction calls1 as [|c calls1 IH]; intros made; cbn.
  - rewrite List.app_nil_r. tauto.
  - rewrite IH, <- (assoc_L (++)). cbn. tauto.
Qed.

Section Steps.
Variable E : env.
Variable database : string.

Lemma driver_accepted c conn fs cr made lg :
  driver_error E made c = None →
  driver E c (State conn fs cr made lg)
    = (State conn fs cr (made ++ [c]) lg, Ok tt).
Proof. intros H. unfold driver. cbn. by rewrite H. Qed.

Lemma driver_rejected c conn fs cr made lg msg :
  driver_error E made c = Some msg →
  driver E c (State conn fs cr made lg)
    = (State conn fs cr (made ++ [c]) lg, Raise (MySQLError msg)).
Proof. intros H. unfold driver. cbn. by rewrite H. Qed.

(** The loop over the candidates, when the driver accepts every call:
    the statements are executed in order, each with its commit. *)
Lemma run_commands_accepted sql_commands : ∀ conn fs cr made lg,
  let stmts := filter (λ c, blank c = false) sql_commands in
  accepted E made (statement_calls stmts) →
  for_each sql_commands (run_command E) (State conn fs cr made lg)
    = (State conn fs cr (made ++ statement_calls stmts) lg, Ok tt).
Proof.
  induction sql_commands as [|command rest IH]; intros conn fs cr made lg.
  { cbn. intros _. by rewrite List.app_nil_r. }
  cbn zeta. rewrite filter_cons. cbn [for_each].
  unfold run_command at 1. rewrite truthy_strip.
  destruct (blank command) eqn:Hb; cbn [negb].
  - rewrite decide_False by done. intros Hacc.
    erewrite bind_ok by reflexivity. by apply IH.
  - rewrite decide_True by done. rewrite statement_calls_cons.
    intros (Hexec & Hcommit & Hacc).
    erewrite bind_ok; [|erewrite bind_ok;
      [by apply driver_accepted | by apply driver_accepted]].
    rewrite IH by done. by rewrite <- !(assoc_L (++)).
Qed.

(** The loop stops at the first statement the driver rejects: the
    statements before it are executed and committed, it is attempted,
    and nothing follows. *)
Lemma run_commands_rejected sql_commands :
  ∀ pre bad post conn fs cr made lg msg,
  filter (λ c, blank c = false) sql_commands = pre ++ bad :: post →
  accepted E made (statement_calls pre) →
  driver_error E (made ++ statement_calls pre) (Execute bad) = Some msg →
  for_each sql_commands (run_command E) (State conn fs cr made lg)
    = (State conn fs cr (made ++ statement_calls pre ++ [Execute bad]) lg,
       Raise (MySQLError msg)).
Proof.
  induction sql_commands as [|command rest IH];
    intros pre bad post conn fs cr made lg msg Hsplit Hacc Hbad.
  { by destruct pre. }
  rewrite filter_cons in Hsplit. cbn [for_each].
  unfold run_command at 1. rewrite truthy_strip.
  destruct (blank command) eqn:Hb; cbn [negb].
  - rewrite decide_False in Hsplit by done.
    erewrite bind_ok by reflexivity. by eapply IH.
  - rewrite decide_True in Hsplit by done.
    destruct pre as [|stmt pre]; simplify_eq/=.
    + rewrite List.app_nil_r in Hbad.
      erewrite bind_raise; [done|].
      erewrite bind_raise; [done|]. by apply driver_rejected.
    + destruct Hacc as (Hexec & Hcommit & Hacc).
      erewrite bind_ok; [|erewrite bind_ok;
        [by apply driver_accepted | by apply driver_accepted]].
      erewrite IH; [|done|done|].
      * by rewrite <- !(assoc_L (++)).
      * by rewrite <- !(assoc_L (++)).
Qed.
(** *** The history document *)

Lemma record_deployment_appends sql_file conn fs cr made lg entries :
  let record := deployment_record (isoformat_now E cr) sql_file in
  history_is E (State conn fs cr made lg) entries →
  _record_deployment E sql_file (State conn fs cr made lg)
    = (State conn
         (alter (λ f, File (readable f) (writable f)
                           (JsonDump (JArray (entries ++ [record]))))
                deployment_history_file fs)
         (S cr) made lg, Ok tt).
Proof.
  intros record (f & Hf & Hr & Hw & Hp). cbn in Hf.
  unfold _record_deployment.
  erewrite bind_ok by reflexivity.
  erewrite bind_ok; [|by unfold open_rw; cbn; rewrite Hf, Hr, Hw].
  erewrite bind_ok; [|by unfold json_load; destruct (data f); cbn in Hp;
                       rewrite ?Hp; simplify_eq].
  erewrite bind_ok by reflexivity. reflexivity.
Qed.

Lemma history_is_after_record sql_file conn fs cr made lg entries s' :
  history_is E (State conn fs cr made lg) entries →
  _record_deployment E sql_file (State conn fs cr made lg) = (s', Ok tt) →
  history_is E s'
    (entries ++ [deployment_record (isoformat_now E cr) sql_file]).
Proof.
  intros Hh. rewrite (record_deployment_appends _ _ _ _ _ _ _ Hh).
  intros [= <-]. destruct Hh as (f & Hf & Hr & Hw & Hp). cbn in Hf.
  eexists. cbn. rewrite lookup_alter_eq, Hf. cbn. done.
Qed.

(** Whatever the history file holds, recording makes no driver call,
    and when it raises, the exception is not a driver error and no
    file has changed. *)
Lemma record_deployment_raises sql_file s s' e :
  _record_deployment E sql_file s = (s', Raise e) →
  (∀ msg, e ≠ MySQLError msg) ∧ files s' = files s ∧
  db_calls s' = db_calls s.
Proof.
  unfold _record_deployment, bind, now_isoformat, open_rw, json_load,
    append, rewrite_json, modify, ret, raise. cbn.
  destruct (files s !! deployment_history_file) as [f|]; cbn;
    [|by intros [= <- <-]].
  destruct (readable f && writable f); cbn; [|by intros [= <- <-]].
  destruct (data f) as [t|v]; [destruct (json_loads E t) as [v|]|];
    try destruct v; cbn; by intros [= <- <-].
Qed.

Lemma record_deployment_db_calls sql_file s :
  db_calls (_record_deployment E sql_file s).1 = db_calls s.
Proof.
  destruct (_record_deployment E sql_file s) as [s' [[]|e]] eqn:Hrun.
  - revert Hrun.
    unfold _record_deployment, bind, now_isoformat, open_rw, json_load,
      append, rewrite_json, modify, ret, raise. cbn.
    destruct (files s !! deployment_history_file) as [f|]; cbn; [|done].
    destruct (readable f && writable f); cbn; [|done].
    destruct (data f) as [t|v]; [destruct (json_loads E t) as [v|]|];
      try destruct v; cbn; by intros [= <-].
  - by apply record_deployment_raises in Hrun as (_ & _ & ?).
Qed.

Lemma get_deployment_history_reads s entries :
  history_is E s entries →
  get_deployment_history E s = (s, Ok (JArray entries)).
Proof.
  intros (f & Hf & Hr & _ & Hp). unfold get_deployment_history.
  erewrite bind_ok; [|by unfold open_r; rewrite Hf, Hr].
  unfold json_load. destruct (data f); cbn in Hp; rewrite ?Hp; by simplify_eq.
Qed.

Lemma init_deployment_history_creates conn fs cr made lg :
  fs !! deployment_history_file = None →
  open_w_error E deployment_history_file = None →
  ∃ s', _init_deployment_history E (State conn fs cr made lg) = (s', Ok tt) ∧
        history_is E s' [].
Proof.
  intros Hnone Hopen.
  unfold _init_deployment_history, bind, gets, create_json. cbn.
  rewrite Hnone, bool_decide_eq_false_2 by (by intros [? [=]]). cbn.
  rewrite Hopen.
  eexists; split; [reflexivity|].
  eexists. cbn. rewrite lookup_insert_eq. done.
Qed.
(** *** [execute_sql_file] *)

(** Past the connection guard: with a live connection, or one that
    [connect] obtains, the [try] statement runs next. *)
Lemma execute_sql_file_connected sql_file conn fs cr made lg :
  let s := State conn fs cr made lg in
  accepted E made (connect_calls s) →
  ∃ conn' lg',
    execute_sql_file E database sql_file s
      = execute_sql_file_try E sql_file
          (State conn' fs cr (made ++ connect_calls s) lg').
Proof.
  intros s. unfold connect_calls, s. cbn [connection].
  unfold execute_sql_file.
  erewrite bind_ok by reflexivity. cbn [connection].
  destruct (is_live conn) eqn:Hlive; cbn [negb].
  - intros _. erewrite bind_ok by reflexivity. cbn.
    rewrite List.app_nil_r. by exists conn, lg.
  - intros [Hconn _].
    erewrite bind_ok.
    2:{ unfold connect. apply try_ok.
        erewrite bind_ok by (by apply driver_accepted).
        erewrite bind_ok by reflexivity.
        erewrite bind_ok by reflexivity. reflexivity. }
    cbn. by eexists _, _.
Qed.

Lemma execute_sql_file_try_missing sql_file s :
  files s !! sql_file = None →
  execute_sql_file_try E sql_file s = (s, Raise (FileNotFoundError sql_file)).
Proof.
  intros Hnone. unfold execute_sql_file_try.
  apply try_uncaught; [|done].
  apply bind_raise. unfold open_r. by rewrite Hnone.
Qed.

Lemma execute_sql_file_try_unreadable sql_file s f :
  files s !! sql_file = Some f → readable f = false →
  execute_sql_file_try E sql_file s = (s, Raise (PermissionError sql_file)).
Proof.
  intros Hf Hr. unfold execute_sql_file_try.
  apply try_uncaught; [|done].
  apply bind_raise. unfold open_r. by rewrite Hf, Hr.
Qed.

Lemma open_r_readable sql_file s f :
  files s !! sql_file = Some f → readable f = true →
  open_r sql_file s = (s, Ok (data f)).
Proof. intros Hf Hr. unfold open_r. by rewrite Hf, Hr. Qed.

Lemma execute_sql_file_try_rejected sql_file conn fs cr made lg f
    pre bad post msg :
  fs !! sql_file = Some f → readable f = true →
  statements (read E (data f)) = pre ++ bad :: post →
  accepted E made (Cursor :: statement_calls pre) →
  driver_error E (made ++ Cursor :: statement_calls pre) (Execute bad)
    = Some msg →
  execute_sql_file_try E sql_file (State conn fs cr made lg)
    = (State conn fs cr
         (made ++ Cursor :: statement_calls pre ++ [Execute bad])
         (lg ++ [LogRecord ERROR
                   ("Error executing SQL file " +:+ sql_file +:+ ": ")
                   (Some (MySQLError msg))]),
       Ok false).
Proof.
  intros Hf Hr Hsplit [Hcursor Hacc] Hbad. unfold execute_sql_file_try.
  erewrite try_caught;
    [| erewrite bind_ok by (by eapply open_r_readable);
       erewrite bind_ok by (by apply driver_accepted);
       apply bind_raise; eapply run_commands_rejected; [done..|];
       by rewrite <- (assoc_L (++))
     | reflexivity].
  cbn. by rewrite <- (assoc_L (++)).
Qed.

Lemma execute_sql_file_try_accepted sql_file conn fs cr made lg f :
  let calls := Cursor :: statement_calls (statements (read E (data f)))
                 ++ [CursorClose] in
  fs !! sql_file = Some f → readable f = true →
  accepted E made calls →
  execute_sql_file_try E sql_file (State conn fs cr made lg)
    = match _record_deployment E sql_file
              (State conn fs cr (made ++ calls) lg) with
      | (s', Ok _) =>
          (set_log (log s' ++ [LogRecord INFO
                     ("Successfully executed SQL file: " +:+ sql_file)
                     None]) s', Ok true)
      | (s', Raise e) => (s', Raise e)
      end.
Proof.
  intros calls Hf Hr [Hcursor [Hacc [Hclose _]]%accepted_app].
  assert (∀ k : unit → M state bool,
    (let! f := open_r sql_file in
     let sql_commands := split ";"%char (read E f) in
     let! _ := driver E Cursor in
     let! _ := for_each sql_commands (run_command E) in
     let! _ := driver E CursorClose in
     k tt) (State conn fs cr made lg)
    = k tt (State conn fs cr (made ++ calls) lg)) as Hprefix.
  { intros k.
    erewrite bind_ok by (by eapply open_r_readable). cbn zeta.
    erewrite bind_ok by (by apply driver_accepted).
    erewrite bind_ok by (by apply run_commands_accepted).
    erewrite bind_ok by (apply driver_accepted; exact Hclose).
    unfold calls. by rewrite <- !(assoc_L (++)). }
  unfold execute_sql_file_try.
  destruct (_record_deployment E sql_file _) as [s' [[]|e]] eqn:Hrec.
  - apply try_ok.
    rewrite (Hprefix (λ _, let! _ := _record_deployment E sql_file in _)).
    erewrite bind_ok by done. reflexivity.
  - apply try_uncaught.
    + rewrite (Hprefix (λ _, let! _ := _record_deployment E sql_file in _)).
      by apply bind_raise.
    + apply record_deployment_raises in Hrec as (Hne & _).
      destruct e; try done. by destruct (Hne msg).
Qed.
End Steps.

(** Recording file after file appends entry after entry, each stamped
    with the next reading of the clock. *)
Lemma record_all (E : env) (sql_files : list string) : ∀ s entries,
  history_is E s entries →
  ∃ s', for_each sql_files (_record_deployment E) s = (s', Ok tt) ∧
        history_is E s'
          (entries ++ imap (λ k sql_file,
                              deployment_record
                                (isoformat_now E (clock_reads s + k)) sql_file)
                           sql_files).
Proof.
  induction sql_files as [|sql_file rest IH]; intros s entries Hh.
  { exists s. cbn. by rewrite List.app_nil_r. }
  destruct s as [conn fs cr made lg]. cbn [for_each clock_reads].
  pose proof (record_deployment_appends E sql_file _ _ _ _ _ _ Hh) as Hrec.
  cbn zeta in Hrec.
  pose proof (history_is_after_record E sql_file _ _ _ _ _ _ _ Hh Hrec) as Hh1.
  erewrite bind_ok by exact Hrec.
  destruct (IH _ _ Hh1) as (s' & Hrun & Hh'). exists s'. split; [done|].
  cbn [clock_reads] in Hh'. rewrite imap_cons, Nat.add_0_r.
  rewrite <- (assoc_L (++)) in Hh'. cbn [app] in Hh'.
  erewrite imap_ext; [exact Hh'|]. intros k f _. cbn.
  by rewrite Nat.add_succ_r.
Qed.

(** C1. Starting from an empty history document, recording [N]
    deployments succeeds, and [get_deployment_history] then returns
    exactly [N] entries: one per recorded file, in the order recorded,
    each with the time of its recording. *)
Theorem history_round_trip (E : env) (sql_files : list string) (s : state) :
  history_is E s [] →
  ∃ s' entries,
    for_each sql_files (_record_deployment E) s = (s', Ok tt) ∧
    get_deployment_history E s' = (s', Ok (JArray entries)) ∧
    length entries = length sql_files ∧
    entries = imap (λ k sql_file,
                      deployment_record
                        (isoformat_now E (clock_reads s + k)) sql_file)
                   sql_files.
Proof.
  intros Hh. destruct (record_all E sql_files s [] Hh) as (s' & Hrun & Hh').
  cbn [app] in Hh'. eexists s', _. split; [done|].
  split; [by apply get_deployment_history_reads|].
  split; [by rewrite length_imap | done].
Qed.

Lemma history_round_trip_witness :
  ∃ s', for_each ["a.sql"; "b.sql"] (_record_deployment Sample.deploy_env)
          Sample.deploy_state = (s', Ok tt) ∧
        get_deployment_history Sample.deploy_env s'
          = (s', Ok (JArray
               [deployment_record "2024-03-05T12:00:00" "a.sql";
                deployment_record "2024-03-05T12:00:01" "b.sql"])).
Proof.
  destruct (history_round_trip Sample.deploy_env ["a.sql"; "b.sql"]
              Sample.deploy_state)
    as (s' & entries & Hrun & Hget & _ & ->).
  - exists Sample.empty_history. repeat split.
  - exists s'. split; [exact Hrun | exact Hget].
Defined.

(** C2. On a well-formed history document, recording a deployment of
    [sql_file] succeeds and leaves a well-formed document with one entry
    more: the old entries, unchanged and in place, followed by an entry
    whose [sql_file] is the given path and whose [status] is
    ["success"]. *)
Theorem record_deployment_appends_one (E : env) (sql_file : string)
    (s : state) (entries : list json) :
  history_is E s entries →
  ∃ s' entry,
    _record_deployment E sql_file s = (s', Ok tt) ∧
    history_is E s' (entries ++ [entry]) ∧
    length (entries ++ [entry]) = S (length entries) ∧
    (∀ i old, entries !! i = Some old → (entries ++ [entry]) !! i = Some old) ∧
    last (entries ++ [entry]) = Some entry ∧
    field "sql_file" entry = Some (JString sql_file) ∧
    field "status" entry = Some (JString "success").
Proof.
  intros Hh. destruct s as [conn fs cr made lg].
  pose proof (record_deployment_appends E sql_file _ _ _ _ _ _ Hh) as Hrec.
  cbn zeta in Hrec.
  eexists _, (deployment_record (isoformat_now E cr) sql_file).
  split; [exact Hrec|].
  split; [by eapply history_is_after_record|].
  split; [rewrite length_app; cbn; lia|].
  split; [intros i old Hi; by apply lookup_app_l_Some|].
  split; [apply last_snoc|]. done.
Qed.

Lemma record_deployment_appends_one_witness :
  ∃ s', _record_deployment Sample.deploy_env "add_column.sql"
          Sample.deploy_state = (s', Ok tt) ∧
        history_is Sample.deploy_env s'
          [deployment_record "2024-03-05T12:00:00" "add_column.sql"].
Proof.
  destruct (record_deployment_appends_one Sample.deploy_env "add_column.sql"
              Sample.deploy_state [])
    as (s' & entry & Hrun & Hh & _).
  - exists Sample.empty_history. repeat split.
  - exists s'. split; [exact Hrun|].
    vm_compute in Hrun. injection Hrun as <-.
    exists (File true true (JsonDump (JArray
              [deployment_record "2024-03-05T12:00:00" "add_column.sql"]))).
    repeat split.
Defined.

(** C3. Let the script be readable, let the connection be live or
    obtainable, and let the driver accept the cursor and the statements
    [pre], each with its commit, and reject the next statement [bad].
    Then [execute_sql_file] returns [False]; the driver has seen the
    statements of [pre], then [bad], and nothing after it; and no file has
    changed, so the history document holds what it held. *)
Theorem execute_sql_file_stops_at_first_error (E : env)
    (database sql_file : string) (s : state) (f : file)
    (pre : list string) (bad : string) (post : list string) (msg : string) :
  files s !! sql_file = Some f → readable f = true →
  statements (read E (data f)) = pre ++ bad :: post →
  accepted E (db_calls s) (connect_calls s ++ Cursor :: statement_calls pre) →
  driver_error E (db_calls s ++ connect_calls s ++ Cursor :: statement_calls pre)
    (Execute bad) = Some msg →
  ∃ s', execute_sql_file E database sql_file s = (s', Ok false) ∧
        db_calls s' = db_calls s ++ connect_calls s ++
                      Cursor :: statement_calls pre ++ [Execute bad] ∧
        files s' = files s ∧
        ∀ entries, history_is E s entries → history_is E s' entries.
Proof.
  intros Hf Hr Hsplit [Hconn Hacc]%accepted_app Hbad.
  destruct s as [conn fs cr made lg]. cbn [db_calls files] in *.
  destruct (execute_sql_file_connected E database sql_file conn fs cr made lg
              Hconn) as (conn' & lg' & ->).
  rewrite (assoc_L (++)) in Hbad.
  rewrite (execute_sql_file_try_rejected E sql_file conn' fs cr _ lg' f
             pre bad post msg Hf Hr Hsplit Hacc Hbad).
  eexists. split; [reflexivity|]. cbn.
  split; [by rewrite <- (assoc_L (++))|]. split; [done|].
  intros entries Hh. exact Hh.
Qed.

Lemma execute_sql_file_stops_at_first_error_witness :
  ∃ s', execute_sql_file Sample.deploy_env "assignment1" "broken.sql"
          Sample.deploy_state = (s', Ok false) ∧
        db_calls s' = [Connect; Cursor; Execute "CREATE TABLE u (id INT)";
                       Commit; Execute " DROP TABLE missing"] ∧
        history_is Sample.deploy_env s' [].
Proof.
  destruct (execute_sql_file_stops_at_first_error Sample.deploy_env
              "assignment1" "broken.sql" Sample.deploy_state
              (Sample.script Sample.bad_sql)
              ["CREATE TABLE u (id INT)"] " DROP TABLE missing"
              [" CREATE TABLE v (id INT)"] "1051 (42S02): Unknown table")
    as (s' & Hrun & Hcalls & _ & Hh); [reflexivity.. | |reflexivity|].
  - cbn. repeat split.
  - exists s'. split; [exact Hrun|]. split; [exact Hcalls|].
    apply Hh. exists Sample.empty_history. repeat split.
Defined.

(** C4. Let the script be readable, let the connection be live or
    obtainable, and let the driver raise on none of the calls of the run.
    Then [execute_sql_file] makes exactly these calls: the cursor; for each
    candidate of [split(';')] that is not empty and not white space only,
    in the order of the text, its execution followed by a commit; and the
    closing of the cursor. *)
Theorem execute_sql_file_runs_statements (E : env)
    (database sql_file : string) (s : state) (f : file) :
  let candidates := split ";"%char (read E (data f)) in
  let stmts := filter (λ c, blank c = false) candidates in
  let calls := connect_calls s ++ Cursor :: statement_calls stmts
                 ++ [CursorClose] in
  files s !! sql_file = Some f → readable f = true →
  accepted E (db_calls s) calls →
  db_calls (execute_sql_file E database sql_file s).1 = db_calls s ++ calls ∧
  join ";" candidates = read E (data f) ∧
  ∀ c, c ∈ stmts ↔ c ∈ candidates ∧ c ≠ "" ∧ blank c = false.
Proof.
  intros candidates stmts calls Hf Hr [Hconn Hacc]%accepted_app.
  split; [|split].
  - destruct s as [conn fs cr made lg]. cbn [db_calls files] in *.
    destruct (execute_sql_file_connected E database sql_file conn fs cr
                made lg Hconn) as (conn' & lg' & ->).
    rewrite (execute_sql_file_try_accepted E sql_file conn' fs cr _ lg' f
               Hf Hr Hacc).
    pose proof (record_deployment_db_calls E sql_file
      (State conn' fs cr
         ((made ++ connect_calls (State conn fs cr made lg)) ++
          Cursor :: statement_calls (statements (read E (data f)))
            ++ [CursorClose]) lg')) as Hcalls.
    destruct (_record_deployment E sql_file _) as [s' [[]|e]];
      cbn in Hcalls |- *; rewrite Hcalls; by rewrite <- (assoc_L (++)).
  - apply join_split.
  - intros c. unfold stmts. rewrite list_elem_of_filter.
    split; [|tauto]. intros [Hb Hc]. repeat split; [done| |done].
    by intros ->.
Qed.

Lemma execute_sql_file_runs_statements_witness :
  db_calls (execute_sql_file Sample.deploy_env "assignment1" "add_column.sql"
              Sample.deploy_state).1
    = [Connect; Cursor; Execute "ALTER TABLE t ADD COLUMN c INT"; Commit;
       Execute "UPDATE t SET c = 0"; Commit; CursorClose].
Proof.
  destruct (execute_sql_file_runs_statements Sample.deploy_env "assignment1"
              "add_column.sql" Sample.deploy_state
              (Sample.script Sample.good_sql)) as (Hcalls & _);
    [reflexivity | reflexivity | cbn; repeat split | exact Hcalls].
Defined.

(** *** Where [False] comes from *)

Section Failure.
Variable E : env.
Variable database : string.

(** A driver call touches no file, and raises only when the driver
    says so. *)
Lemma driver_inv c s s' (r : result unit) :
  driver E c s = (s', r) →
  files s' = files s ∧
  ∀ e, r = Raise e →
       ∃ msg, e = MySQLError msg ∧ driver_error E (db_calls s) c = Some msg.
Proof.
  unfold driver. destruct (driver_error E (db_calls s) c) as [msg|] eqn:Hc;
    intros [= <- <-]; (split; [done|]); intros e [=]. subst. by exists msg.
Qed.

Lemma run_commands_inv sql_commands : ∀ s s' (r : result unit),
  for_each sql_commands (run_command E) s = (s', r) →
  files s' = files s ∧ ∀ e, r = Raise e → driver_raised E e.
Proof.
  induction sql_commands as [|command rest IH]; intros s s' r.
  { cbn. by intros [= <- <-]. }
  cbn [for_each]. intros [(s1 & [] & Hcmd & Hrest)|(e & Hcmd & ->)]%bind_inv.
  - apply IH in Hrest as [Hfiles Hr]. split; [|done].
    rewrite Hfiles. revert Hcmd. unfold run_command.
    destruct (truthy (strip command)); [|by intros [= <-]].
    intros [(s2 & [] & [Hf1 _]%driver_inv & [Hf2 _]%driver_inv)
           |(? & _ & [=])]%bind_inv. congruence.
  - revert Hcmd. unfold run_command.
    destruct (truthy (strip command)); [|by intros [=]].
    intros [(s2 & [] & [Hf1 _]%driver_inv & [Hf2 Hr]%driver_inv)
           |(e' & [Hf1 Hr]%driver_inv & [= <-])]%bind_inv.
    + split; [congruence|]. intros e1 [= <-].
      destruct (Hr e eq_refl) as (msg & -> & Hmsg). by eexists _, _, msg.
    + split; [done|]. intros e1 [= <-].
      destruct (Hr e eq_refl) as (msg & -> & Hmsg). by eexists _, _, msg.
Qed.
Lemma open_r_inv path s s' (r : result contents) :
  open_r path s = (s', r) →
  s' = s ∧ ∀ e, r = Raise e → ∀ msg, e ≠ MySQLError msg.
Proof.
  unfold open_r. destruct (files s !! path) as [f|];
    [destruct (readable f)|]; intros [= <- <-]; split; try done;
    by intros e [= <-].
Qed.

(** The [try] statement answers [False] only from its [except Error]
    clause: a driver call has raised, and no file has changed. *)
Lemma execute_sql_file_try_false sql_file s s' :
  execute_sql_file_try E sql_file s = (s', Ok false) →
  files s' = files s ∧ ∃ e, driver_raised E e.
Proof.
  unfold execute_sql_file_try, try_except.
  match goal with
  | |- context [match ?m s with _ => _ end] =>
      destruct (m s) as [s1 [b|e]] eqn:Hbody
  end.
  - intros [= <- ->]. exfalso. revert Hbody.
    intros [(? & ? & _ & H)|(? & _ & [=])]%bind_inv.
    revert H. intros [(? & ? & _ & H)|(? & _ & [=])]%bind_inv.
    revert H. intros [(? & ? & _ & H)|(? & _ & [=])]%bind_inv.
    revert H. intros [(? & ? & _ & H)|(? & _ & [=])]%bind_inv.
    revert H. intros [(? & ? & _ & H)|(? & _ & [=])]%bind_inv.
    revert H. intros [(? & ? & _ & H)|(? & _ & [=])]%bind_inv.
    by injection H.
  - assert (files s1 = files s ∧
            ((∀ msg, e ≠ MySQLError msg) ∨ driver_raised E e)) as [Hfiles He].
    { revert Hbody.
      intros [(? & ? & [-> _]%open_r_inv & H)
             |(? & [-> Hopen]%open_r_inv & [= <-])]%bind_inv;
        [|by split; [|left; apply Hopen]].
      revert H.
      intros [(s2 & ? & [Hf2 _]%driver_inv & H)
             |(? & [Hf2 Hd]%driver_inv & [= <-])]%bind_inv.
      2:{ split; [done|]. right.
          destruct (Hd _ eq_refl) as (msg & -> & Hmsg). by eexists _, _, msg. }
      revert H.
      intros [(s3 & ? & [Hf3 _]%run_commands_inv & H)
             |(? & [Hf3 Hd]%run_commands_inv & [= <-])]%bind_inv.
      2:{ split; [congruence|]. right. by apply Hd. }
      revert H.
      intros [(s4 & ? & [Hf4 _]%driver_inv & H)
             |(? & [Hf4 Hd]%driver_inv & [= <-])]%bind_inv.
      2:{ split; [congruence|]. right.
          destruct (Hd _ eq_refl) as (msg & -> & Hmsg). by eexists _, _, msg. }
      revert H.
      intros [(s5 & ? & _ & H)|(? & Hrec & [= <-])]%bind_inv.
      2:{ pose proof (record_deployment_raises _ _ _ _ _ Hrec)
            as (Hne & Hf5 & _).
          split; [congruence | by left]. }
      revert H. intros [(? & ? & _ & [=])|(? & [=] & _)]%bind_inv. }
    destruct e; cbn; try (by intros [=]).
    intros [= <-]. cbn. split; [done|].
    destruct He as [Hne|Hd]; [by destruct (Hne msg) | by eexists].
Qed.

Lemma connect_inv s s' b :
  connect E database s = (s', Ok b) →
  files s' = files s ∧ (b = false → ∃ e, driver_raised E e).
Proof.
  unfold connect, try_except, bind, driver, modify, logging, ret. cbn.
  destruct (driver_error E (db_calls s) Connect) as [msg|] eqn:Hc; cbn;
    intros [= <- <-]; (split; [done|]); [intros _ | done].
  by eexists _, _, _, msg.
Qed.

(** [execute_sql_file] answers [False] only after an error of the
    driver, and then no file has changed. *)
Lemma execute_sql_file_false sql_file s s' :
  execute_sql_file E database sql_file s = (s', Ok false) →
  files s' = files s ∧ ∃ e, driver_raised E e.
Proof.
  unfold execute_sql_file.
  intros [(? & live & [= <- <-] & H)|(? & [=] & _)]%bind_inv.
  revert H.
  intros [(s1 & connected & Hconn & H)|(? & _ & [=])]%bind_inv.
  assert (files s1 = files s ∧ (connected = false → ∃ e, driver_raised E e))
    as [Hf1 Hfalse].
  { destruct (negb (is_live (connection s))).
    - by apply connect_inv in Hconn.
    - injection Hconn as <- <-. done. }
  destruct connected; cbn in H.
  - apply execute_sql_file_try_false in H as [Hf He]. split; [congruence|done].
  - injection H as <-. split; [done | by apply Hfalse].
Qed.
End Failure.

(** C10. With a live connection, or one that [connect] obtains, a path
    that names no file, or a file that cannot be read, makes
    [execute_sql_file] raise the error of [open]: it is not turned into a
    [False], and no file has changed, the history document included.
    [False] is the answer to errors of the driver only: whenever
    [execute_sql_file] returns it, some driver call has raised. *)
Theorem execute_sql_file_open_error_propagates (E : env)
    (database sql_file : string) (s : state) :
  accepted E (db_calls s) (connect_calls s) →
  files s !! sql_file = None ∨
    (∃ f, files s !! sql_file = Some f ∧ readable f = false) →
  (∃ s' e, execute_sql_file E database sql_file s = (s', Raise e) ∧
           (e = FileNotFoundError sql_file ∨ e = PermissionError sql_file) ∧
           files s' = files s ∧
           ∀ entries, history_is E s entries → history_is E s' entries) ∧
  (∀ other s0 s0', execute_sql_file E database other s0 = (s0', Ok false) →
                   files s0' = files s0 ∧ ∃ e, driver_raised E e).
Proof.
  intros Hconn Hfile. split; [|by apply execute_sql_file_false].
  destruct s as [conn fs cr made lg]. cbn [db_calls files] in *.
  destruct (execute_sql_file_connected E database sql_file conn fs cr made lg
              Hconn) as (conn' & lg' & ->).
  destruct Hfile as [Hnone|(f & Hf & Hr)].
  - rewrite execute_sql_file_try_missing by done.
    eexists _, _. split; [reflexivity|]. split; [by left|]. by split.
  - erewrite execute_sql_file_try_unreadable by done.
    eexists _, _. split; [reflexivity|]. split; [by right|]. by split.
Qed.

Lemma execute_sql_file_open_error_propagates_witness :
  ∃ s', execute_sql_file Sample.deploy_env "assignment1" "nope.sql"
          Sample.deploy_state = (s', Raise (FileNotFoundError "nope.sql")) ∧
        history_is Sample.deploy_env s' [].
Proof.
  destruct (execute_sql_file_open_error_propagates Sample.deploy_env
              "assignment1" "nope.sql" Sample.deploy_state)
    as [(s' & e & Hrun & _ & _ & Hh) _].
  - cbn. repeat split.
  - left. reflexivity.
  - exists s'. split.
    + rewrite Hrun. vm_compute in Hrun. by injection Hrun as _ <-.
    + apply Hh. exists Sample.empty_history. repeat split.
Defined.

(** C9. [disconnect] raises nothing and leaves no live connection,
    whatever the state: a live connection is closed, and otherwise, in
    particular when no connection was ever made, nothing changes at all.
    Called again right after, it changes nothing. *)
Theorem disconnect_idempotent (s : state) :
  ∃ s1, disconnect s = (s1, Ok tt) ∧
        is_live (connection s1) = false ∧
        disconnect s1 = (s1, Ok tt) ∧
        (if is_live (connection s)
         then db_calls s1 = db_calls s ++ [Close] ∧ files s1 = files s
         else s1 = s) ∧
        ∀ fs cr made lg,
          disconnect (State None fs cr made lg)
            = (State None fs cr made lg, Ok tt).
Proof.
  destruct s as [[[[]]|] fs cr made lg];
    (eexists; split; [reflexivity|]); cbn; done.
Qed.

End DeployFacts.

(** ** More facts about the Python built-ins *)

Module PyMore.
Import PyFacts.

Lemma split_no_sep sep s : contains sep s = false → split sep s = [s].
Proof.
  induction s as [|c s IH]; cbn; [done|].
  intros [Hc Hs]%orb_false_elim. apply bool_decide_eq_false in Hc.
  rewrite decide_False by done. by rewrite IH.
Qed.

Lemma split_app_sep sep a b :
  contains sep a = false →
  split sep (a +:+ String sep b) = a :: split sep b.
Proof.
  induction a as [|c a IH]; intros Ha.
  - rewrite str_app_nil_l. cbn. by rewrite decide_True.
  - cbn in Ha. apply orb_false_elim in Ha as [Hc Ha].
    apply bool_decide_eq_false in Hc.
    rewrite str_app_cons. cbn. rewrite decide_False by done.
    by rewrite IH.
Qed.

(** [split] undoes [join] on pieces that are free of the separator. *)
Lemma split_join sep piece pieces :
  Forall (λ p, contains sep p = false) (piece :: pieces) →
  split sep (join (String sep "") (piece :: pieces)) = piece :: pieces.
Proof.
  revert piece. induction pieces as [|q pieces IH]; intros piece Hfree.
  - cbn. apply split_no_sep. by inversion Hfree.
  - inversion Hfree as [|? ? Hp Hrest]; subst.
    change (join (String sep "") (piece :: q :: pieces))
      with (piece +:+ String sep "" +:+ join (String sep "") (q :: pieces)).
    rewrite str_app_cons, str_app_nil_l, split_app_sep by done.
    by rewrite IH.
Qed.

Lemma rstrip_app a b :
  rstrip b ≠ "" → rstrip (a +:+ b) = a +:+ rstrip b.
Proof.
  intros Hb. induction a as [|c a IH]; [done|].
  rewrite !str_app_cons. cbn. rewrite IH.
  destruct (a +:+ rstrip b) eqn:Hab; [|done].
  apply str_app_empty in Hab as [_ ?]. done.
Qed.

Lemma rstrip_app_blank a b : blank b = true → rstrip (a +:+ b) = rstrip a.
Proof.
  intros Hb. induction a as [|c a IH].
  - rewrite str_app_nil_l. by apply rstrip_empty_iff.
  - rewrite str_app_cons. cbn. by rewrite IH.
Qed.

Lemma lstrip_id c s : isspace c = false → lstrip (String c s) = String c s.
Proof. intros Hc. cbn. by rewrite Hc. Qed.

Lemma contains_app c a b :
  contains c (a +:+ b) = contains c a || contains c b.
Proof.
  induction a as [|x a IH]; [by rewrite str_app_nil_l|].
  rewrite str_app_cons. cbn. by rewrite IH, orb_assoc.
Qed.

Lemma contains_join c sep pieces :
  contains c sep = false →
  Forall (λ p, contains c p = false) pieces →
  contains c (join sep pieces) = false.
Proof.
  intros Hsep. induction 1 as [|p pieces Hp Hrest IH]; [done|].
  destruct pieces as [|q pieces]; [done|].
  change (join sep (p :: q :: pieces))
    with (p +:+ sep +:+ join sep (q :: pieces)).
  by rewrite !contains_app, Hp, Hsep, IH.
Qed.

(** Text without carriage returns is read as it is. *)
Lemma universal_newlines_id s :
  contains "013"%char s = false → universal_newlines s = s.
Proof.
  induction s as [|c s IH]; [done|]. cbn.
  intros [Hc Hs]%orb_false_elim. apply bool_decide_eq_false in Hc.
  rewrite decide_False by done. by rewrite IH.
Qed.

End PyMore.

(** ** More facts about backup_script.py *)

Module BackupMore.
Import Backup BackupMain PyFacts PyMore BackupFacts.

(** *** Reading the listing *)

Lemma join_not_empty sep piece pieces :
  piece ≠ "" → join sep (piece :: pieces) ≠ "".
Proof.
  intros Hp. destruct pieces as [|q pieces]; [done|].
  change (join sep (piece :: q :: pieces))
    with (piece +:+ sep +:+ join sep (q :: pieces)).
  intros [? _]%str_app_empty. done.
Qed.

Lemma rstrip_join piece pieces :
  Forall (λ p, p ≠ "" ∧ rstrip p = p) (piece :: pieces) →
  rstrip (join nl (piece :: pieces)) = join nl (piece :: pieces).
Proof.
  revert piece. induction pieces as [|q pieces IH]; intros piece Hall.
  - cbn [join]. by inversion Hall as [|? ? [_ ?]].
  - inversion Hall as [|? ? [Hne Hp] Hrest]; subst.
    change (join nl (piece :: q :: pieces))
      with (piece +:+ nl +:+ join nl (q :: pieces)).
    assert (join nl (q :: pieces) ≠ "") as Hj
      by (apply join_not_empty; by inversion Hrest as [|? ? [? _]]).
    assert (rstrip (nl +:+ join nl (q :: pieces))
            = nl +:+ join nl (q :: pieces)) as Hnl
      by (rewrite rstrip_app; rewrite IH; done).
    rewrite rstrip_app; rewrite Hnl; [done|].
    intros [[=] _]%str_app_empty.
Qed.

Lemma strip_batch_output names :
  Forall (λ n, n ≠ "" ∧ rstrip n = n) names →
  strip (batch_output names) = join nl ("Database" :: names).
Proof.
  intros Hall. unfold strip, batch_output.
  assert (∃ rest, join nl ("Database" :: names) = String "D" rest)
    as [rest Hd].
  { destruct names; [by eexists|].
    change (join nl ("Database" :: s :: names))
      with ("Database" +:+ nl +:+ join nl (s :: names)).
    by eexists. }
  rewrite Hd, str_app_cons, lstrip_id by done.
  rewrite <- str_app_cons, <- Hd.
  rewrite rstrip_app_blank by done.
  apply rstrip_join. by constructor.
Qed.

Lemma universal_newlines_batch_output names :
  Forall (λ n, contains "013"%char n = false) names →
  universal_newlines (batch_output names) = batch_output names.
Proof.
  intros Hall. apply universal_newlines_id. unfold batch_output.
  rewrite contains_app, contains_join; [done..|]. by constructor.
Qed.

(** X1. When the listing command succeeds and prints its header followed
    by one name per line (names that are not empty, hold no line feed and
    no carriage return, and do not end in white space), [get_databases]
    returns those names in the order printed, without the four system
    schemas. *)
Theorem get_databases_parses_listing (E : env) (host user password : string)
    (w : world) (names : list string) :
  Forall (λ n, n ≠ "" ∧ rstrip n = n ∧ contains "010"%char n = false ∧
               contains "013"%char n = false) names →
  child E (spawned w) (mysql_cmd host user password)
    = Exited 0 (batch_output names) →
  ∃ w', get_databases E host user password w
          = (w', Ok (filter (λ db, db ∉ denylist) names)).
Proof.
  intros Hall Hchild.
  rewrite (get_databases_exited E host user password w 0 _ Hchild).
  cbn. eexists. do 2 f_equal.
  rewrite universal_newlines_batch_output
    by (eapply Forall_impl; [exact Hall | by intros ? (_ & _ & _ & ?)]).
  rewrite strip_batch_output
    by (eapply Forall_impl; [exact Hall | by intros ? (? & ? & _)]).
  change nl with (String "010"%char "").
  rewrite split_join; [done|].
  constructor; [done|].
  eapply Forall_impl; [exact Hall | by intros ? (_ & _ & ? & _)].
Qed.

Lemma get_databases_parses_listing_witness :
  ∃ w', get_databases
          (Scenario.listing_env ["mysql"; "shop"; "my db"; "sys"] [])
          "localhost" "student" "pw" Scenario.fresh_world
        = (w', Ok ["shop"; "my db"]).
Proof.
  destruct (get_databases_parses_listing
              (Scenario.listing_env ["mysql"; "shop"; "my db"; "sys"] [])
              "localhost" "student" "pw" Scenario.fresh_world
              ["mysql"; "shop"; "my db"; "sys"]) as (w' & Hrun).
  - repeat constructor; done.
  - reflexivity.
  - exists w'. exact Hrun.
Defined.

(** X2. When the listing command succeeds but its output, read as text
    (every carriage return, alone or before a line feed, is a line end)
    and stripped, is a single line (the header alone, or nothing at all),
    [get_databases] returns the empty list: the first line is always
    taken for the header. *)
Theorem get_databases_single_line (E : env) (host user password : string)
    (w : world) (out : string) :
  child E (spawned w) (mysql_cmd host user password) = Exited 0 out →
  contains "010"%char (strip (universal_newlines out)) = false →
  ∃ w', get_databases E host user password w = (w', Ok []) ∧ log w' = log w.
Proof.
  intros Hchild Hline.
  rewrite (get_databases_exited E host user password w 0 _ Hchild).
  cbn. rewrite split_no_sep by done. by eexists.
Qed.

Lemma get_databases_single_line_witness :
  ∃ w', get_databases Sample.dump_env "localhost" "student" "pw"
          Scenario.fresh_world = (w', Ok []) ∧ log w' = [].
Proof.
  destruct (get_databases_single_line Sample.dump_env "localhost" "student"
              "pw" Scenario.fresh_world "-- dump") as (w' & Hrun & Hlog);
    [reflexivity | reflexivity |].
  exists w'. split; [exact Hrun | exact Hlog].
Defined.

(** X3. When the [mysql] binary cannot be started, the [OSError] of
    [subprocess.run] is not caught: [get_databases] raises it, and logs
    nothing. *)
Theorem get_databases_propagates_oserror (E : env)
    (host user password : string) (w : world) (e : exn) :
  child E (spawned w) (mysql_cmd host user password) = NotStarted e →
  (∃ path, e = FileNotFoundError path ∨ e = PermissionError path) →
  ∃ w', get_databases E host user password w = (w', Raise e) ∧
        log w' = log w ∧ files w' = files w.
Proof.
  intros Hchild (path & He).
  rewrite (get_databases_not_started E host user password w e Hchild);
    [by eexists|].
  intros rc. by destruct He as [-> | ->].
Qed.

Lemma get_databases_propagates_oserror_witness :
  ∃ w', get_databases Scenario.no_binary_env "localhost" "student" "pw"
          Scenario.fresh_world = (w', Raise (FileNotFoundError "mysql")).
Proof.
  destruct (get_databases_propagates_oserror Scenario.no_binary_env
              "localhost" "student" "pw" Scenario.fresh_world
              (FileNotFoundError "mysql")) as (w' & Hrun & _).
  - reflexivity.
  - exists "mysql". by left.
  - exists w'. exact Hrun.
Defined.

(** X4. Whatever the listing command does, [get_databases] starts exactly
    one child process, reads no clock, writes no file, and logs at most
    one record, an error. *)
Theorem get_databases_footprint (E : env) (host user password : string)
    (w : world) :
  let w' := (get_databases E host user password w).1 in
  files w' = files w ∧ clock_reads w' = clock_reads w ∧
  spawned w' = S (spawned w) ∧
  (log w' = log w ∨
   ∃ rc, log w' = log w ++ [LogRecord ERROR "Error getting databases: "
                                      (Some (CalledProcessError rc))]).
Proof.
  unfold get_databases, try_except, bind, subprocess_run.
  destruct (child E (spawned w) _) as [rc out|rc out|e]; cbn.
  - case_decide; cbn; repeat split; eauto.
  - repeat split; eauto.
  - destruct e; cbn; repeat split; eauto.
Qed.

(** *** One dump *)



Lemma create_backup_open_raises (E : env)
    (host user password backup_dir database : string) (w : world) (e : exn) :
  open_w_error E (backup_path backup_dir database (clock E (clock_reads w)))
    = Some e →
  (∀ rc, e ≠ CalledProcessError rc) →
  create_backup E host user password backup_dir database w
    = (World (files w) (S (clock_reads w)) (spawned w) (log w), Raise e).
Proof.
  intros Hopen He.
  unfold create_backup, bind, datetime_now, try_except, open_w.
  fold (backup_path backup_dir database (clock E (clock_reads w))).
  rewrite Hopen. cbn. destruct e; try done. by destruct (He returncode).
Qed.

(** X6. When the backup file cannot be opened, [create_backup] raises the
    error of [open]: the clock has been read, but no dump is started, no
    file is written and nothing is logged. *)
Theorem create_backup_open_error (E : env)
    (host user password backup_dir database : string) (w : world) (e : exn) :
  open_w_error E (backup_path backup_dir database (clock E (clock_reads w)))
    = Some e →
  (∀ rc, e ≠ CalledProcessError rc) →
  ∃ w', create_backup E host user password backup_dir database w
          = (w', Raise e) ∧
        clock_reads w' = S (clock_reads w) ∧ spawned w' = spawned w ∧
        files w' = files w ∧ log w' = log w.
Proof.
  intros Hopen He.
  rewrite (create_backup_open_raises E host user password backup_dir database
             w e Hopen He).
  by eexists.
Qed.

Lemma create_backup_open_error_witness :
  ∃ w', create_backup Scenario.read_only_env "localhost" "student" "pw"
          "mysql_backups" "shop" Scenario.fresh_world
        = (w', Raise (PermissionError
                        "mysql_backups/shop_20240305_120000.sql")) ∧
        spawned w' = 0 ∧ files w' = ∅.
Proof.
  destruct (create_backup_open_error Scenario.read_only_env "localhost"
              "student" "pw" "mysql_backups" "shop" Scenario.fresh_world
              (PermissionError "mysql_backups/shop_20240305_120000.sql"))
    as (w' & Hrun & _ & Hs & Hf & _); [reflexivity | done |].
  exists w'. split; [exact Hrun|]. split; [exact Hs | exact Hf].
Defined.



(** *** The loop over the databases *)

Lemma backup_loop_counters (E : env) (host user password backup_dir : string)
    (databases : list string) : ∀ w backup_files,
  (∀ j database, databases !! j = Some database →
     open_w_error E (backup_path backup_dir database
                       (clock E (clock_reads w + j))) = None) →
  (∀ j database, databases !! j = Some database →
     ∃ rc out, child E (spawned w + j)
                 (mysqldump_cmd host user password database)
               = Exited rc out) →
  ∃ w', backup_loop E host user password backup_dir databases backup_files w
        = (w', Ok (backup_files ++
                   successful_paths E host user password backup_dir
                     (clock_reads w) (spawned w) databases)) ∧
        clock_reads w' = clock_reads w + length databases ∧
        spawned w' = spawned w + length databases.
Proof.
  induction databases as [|database rest IH]; intros w acc Hopen Hchild.
  { eexists. cbn. rewrite List.app_nil_r. repeat split; lia. }
  cbn [backup_loop successful_paths]. unfold bind at 1.
  pose proof (Hopen 0 database eq_refl) as Hopen0.
  destruct (Hchild 0 database eq_refl) as (rc & out & Hchild0).
  rewrite Nat.add_0_r in Hopen0, Hchild0.
  rewrite (create_backup_exited E host user password backup_dir w database
             rc out Hopen0 Hchild0), Hchild0.
  set (fs := <[_ := out]> _).
  assert (∀ l acc',
    ∃ w', backup_loop E host user password backup_dir rest acc'
            (World fs (S (clock_reads w)) (S (spawned w)) l)
          = (w', Ok (acc' ++ successful_paths E host user password
                               backup_dir (S (clock_reads w))
                               (S (spawned w)) rest)) ∧
          clock_reads w' = clock_reads w + length (database :: rest) ∧
          spawned w' = spawned w + length (database :: rest)) as Hrest.
  { intros l acc'.
    destruct (IH (World fs (S (clock_reads w)) (S (spawned w)) l) acc')
      as (w' & Hrun & Hc & Hs).
    - cbn. intros j db Hdb. specialize (Hopen (S j) db Hdb).
      by rewrite Nat.add_succ_r in Hopen.
    - cbn. intros j db Hdb. destruct (Hchild (S j) db Hdb) as (rc' & out' & H').
      exists rc', out'. by rewrite Nat.add_succ_r in H'.
    - exists w'. split; [exact Hrun|]. cbn in Hc, Hs |- *. lia. }
  case_decide as Hrc.
  - subst rc. rewrite backup_path_truthy.
    destruct (Hrest (log w ++ [LogRecord INFO
               ("Successfully created backup for " +:+ database +:+ ": " +:+
                backup_path backup_dir database (clock E (clock_reads w)))
               None])
               (acc ++ [backup_path backup_dir database
                          (clock E (clock_reads w))])) as (w' & -> & Hc).
    exists w'. by rewrite <- (assoc_L (++)).
  - destruct (Hrest (log w ++ [LogRecord ERROR
               ("Error creating backup for " +:+ database +:+ ": ")
               (Some (CalledProcessError rc))]) acc) as (w' & -> & Hc).
    exists w'. by destruct rc.
Qed.

Lemma successful_paths_sublist (E : env)
    (host user password backup_dir : string) (databases : list string) :
  ∀ c sp,
  successful_paths E host user password backup_dir c sp databases
    `sublist_of` backup_paths E backup_dir c databases.
Proof.
  induction databases as [|database rest IH]; intros c sp; [done|].
  rewrite backup_paths_cons. cbn [successful_paths].
  destruct (child E sp _) as [[] ?|? ?|?]; cbn;
    by (apply sublist_skip || apply sublist_cons).
Qed.

Lemma elem_of_successful_paths (E : env)
    (host user password backup_dir : string) (databases : list string) :
  ∀ c sp path,
  path ∈ successful_paths E host user password backup_dir c sp databases ↔
  ∃ j database out,
    databases !! j = Some database ∧
    child E (sp + j) (mysqldump_cmd host user password database)
      = Exited 0 out ∧
    path = backup_path backup_dir database (clock E (c + j)).
Proof.
  induction databases as [|database rest IH]; intros c sp path.
  { cbn. split; [by intros ?%elem_of_nil | by intros (? & ? & ? & [=] & _)]. }
  cbn [successful_paths]. rewrite elem_of_app, IH. split.
  - intros [Hhead|(j & db & out & Hdb & Hchild & ->)].
    + destruct (child E sp _) as [[] out| |] eqn:Hc;
        try (by apply elem_of_nil in Hhead).
      apply list_elem_of_singleton in Hhead as ->.
      exists 0, database, out. by rewrite !Nat.add_0_r.
    + exists (S j), db, out. by rewrite !Nat.add_succ_r.
  - intros ([|j] & db & out & Hdb & Hchild & ->).
    + left. injection Hdb as <-. rewrite Nat.add_0_r in Hchild.
      rewrite Hchild, Nat.add_0_r. apply list_elem_of_singleton. done.
    + right. exists j, db, out. by rewrite !Nat.add_succ_r in *.
Qed.

Lemma backup_loop_app (E : env) (host user password backup_dir : string)
    (first : list string) : ∀ rest backup_files w,
  backup_loop E host user password backup_dir (first ++ rest) backup_files w
  = match backup_loop E host user password backup_dir first backup_files w with
    | (w1, Ok produced) =>
        backup_loop E host user password backup_dir rest produced w1
    | (w1, Raise e) => (w1, Raise e)
    end.
Proof.
  induction first as [|database first IH]; intros rest acc w; [done|].
  cbn [app backup_loop]. unfold bind.
  destruct (create_backup E host user password backup_dir database w)
    as [w1 [backup_file|e]]; [apply IH | done].
Qed.





(** X10. When the listing command writes text on its two streams and
    exits with a non-zero status, [backup_all_databases] returns the empty
    list without starting any dump and without touching any file: the
    failed listing is only logged. When what the listing command wrote is
    not text, whatever its exit status, the [UnicodeDecodeError] of the
    decoding comes out of [backup_all_databases], again before any
    dump. *)
Theorem backup_all_databases_listing_fails (E : env)
    (host user password backup_dir : string)
    (w : world) (rc : Z) (out : string) :
  child E (spawned w) (mysql_cmd host user password) = Exited rc out →
  rc ≠ 0%Z →
  (∃ w', backup_all_databases E host user password backup_dir w
           = (w', Ok []) ∧
         spawned w' = S (spawned w) ∧ files w' = files w ∧
         clock_reads w' = clock_reads w) ∧
  (∀ E' rc' raw,
     child E' (spawned w) (mysql_cmd host user password)
       = Undecodable rc' raw →
     ∃ w', backup_all_databases E' host user password backup_dir w
             = (w', Raise UnicodeDecodeError) ∧
           spawned w' = S (spawned w) ∧ files w' = files w ∧
           log w' = log w).
Proof.
  intros Hchild Hrc. unfold backup_all_databases, bind. split.
  - rewrite (get_databases_exited E host user password w rc out Hchild).
    cbn. rewrite decide_False by done. cbn. by eexists.
  - intros E' rc' raw Hchild'.
    rewrite (get_databases_undecodable E' host user password w rc' raw
               Hchild').
    by eexists.
Qed.

Lemma backup_all_databases_listing_fails_witness :
  ∃ w', backup_all_databases Sample.refusing_env "localhost" "student" "pw"
          "mysql_backups" Scenario.fresh_world = (w', Ok []) ∧
        spawned w' = 1.
Proof.
  destruct (backup_all_databases_listing_fails Sample.refusing_env
              "localhost" "student" "pw" "mysql_backups" Scenario.fresh_world
              1 "") as ((w' & Hrun & Hs & _) & _); [reflexivity | lia |].
  exists w'. split; [exact Hrun | exact Hs].
Defined.



(** *** [__init__] and [main] *)

Lemma inits_snoc {A} (l : list A) : ∃ shorter, inits l = shorter ++ [l].
Proof.
  induction l as [|x l [shorter IH]]; [by exists []|].
  exists ([] :: map (cons x) shorter). cbn [inits].
  by rewrite IH, map_app.
Qed.

Lemma path_in_path_and_parents path :
  truthy path = true → path ∈ path_and_parents path.
Proof.
  intros Hp. unfold path_and_parents. apply list_elem_of_filter. split; [done|].
  apply list_elem_of_fmap. exists (split "/"%char path). split.
  - symmetry. apply (join_split "/"%char).
  - destruct (inits_snoc (split "/"%char path)) as [shorter ->].
    apply elem_of_app. right. by apply list_elem_of_singleton.
Qed.

Lemma init_existing (H : host) backup_dir p :
  os_path_exists backup_dir p = (p, Ok true) → __init__ H backup_dir p = (p, Ok tt).
Proof. intros Hex. unfold __init__. by erewrite bind_ok by exact Hex. Qed.

(** X12. [MySQLBackup.__init__] creates the backup directory only when
    nothing exists at that path; once it has returned, constructing the
    object again changes nothing and logs nothing. *)
Theorem backup_init_idempotent (H : host) (backup_dir : string)
    (p p1 : process) :
  __init__ H backup_dir p = (p1, Ok tt) →
  os_path_exists backup_dir p1 = (p1, Ok true) ∧
  __init__ H backup_dir p1 = (p1, Ok tt) ∧
  (os_path_exists backup_dir p = (p, Ok true) → p1 = p).
Proof.
  intros Hinit.
  assert (os_path_exists backup_dir p1 = (p1, Ok true)) as Hex.
  { revert Hinit. unfold __init__, bind, os_path_exists, gets.
    destruct (bool_decide (backup_dir ∈ proc_dirs p)
              || bool_decide (is_Some (files (proc_world p) !! backup_dir)))
      eqn:Hfound; cbn [negb].
    - intros [= <-]. by rewrite Hfound.
    - unfold os_makedirs. destruct (truthy backup_dir) eqn:Ht; cbn; [|done].
      destruct (makedirs_error H backup_dir); [done|].
      unfold in_world. cbn. intros [= <-]. cbn.
      rewrite bool_decide_eq_true_2; [done|].
      apply elem_of_union_l, elem_of_list_to_set.
      by apply path_in_path_and_parents. }
  split; [done|]. split; [by apply init_existing|].
  intros Hbefore. rewrite (init_existing H _ _ Hbefore) in Hinit.
  by injection Hinit.
Qed.

Lemma backup_init_idempotent_witness :
  ∃ p1, __init__ (Host (λ _, None) Sample.dump_env (λ _, None))
          "var/backups" (Process Scenario.fresh_world ∅) = (p1, Ok tt) ∧
        proc_dirs p1 = {["var"; "var/backups"]} ∧
        __init__ (Host (λ _, None) Sample.dump_env (λ _, None))
          "var/backups" p1 = (p1, Ok tt).
Proof.
  eexists. split; [reflexivity|]. split; [by vm_compute|].
  apply (backup_init_idempotent
           (Host (λ _, None) Sample.dump_env (λ _, None)) "var/backups"
           (Process Scenario.fresh_world ∅)).
  reflexivity.
Defined.

Lemma in_world_logging l msg e p :
  in_world (logging l msg e) p
  = (Process (World (files (proc_world p)) (clock_reads (proc_world p))
                (spawned (proc_world p))
                (log (proc_world p) ++ [LogRecord l msg e]))
       (proc_dirs p), Ok tt).
Proof. reflexivity. Qed.

(** X13. Once the backup directory is in place and
    [backup_all_databases] has returned, [main] ends with exit status 0,
    whatever the number of dumps that failed: it logs a warning when no
    backup was made and the number of backups otherwise. *)
Theorem backup_main_exits_zero (H : host) (p p1 : process) (w' : world)
    (paths : list string) :
  let backup_dir := getenv H "BACKUP_DIR" "mysql_backups" in
  __init__ H backup_dir p = (p1, Ok tt) →
  backup_all_databases (outside H)
    (getenv H "MYSQL_HOST" "localhost") (getenv H "MYSQL_USER" "student")
    (getenv H "MYSQL_PASSWORD" "StrongPassword123") backup_dir (proc_world p1)
    = (w', Ok paths) →
  ∃ p', main H p = (p', Ok 0%Z) ∧
        proc_dirs p' = proc_dirs p1 ∧ files (proc_world p') = files w' ∧
        log (proc_world p') = log w' ++
          [if decide (paths = [])
           then LogRecord WARNING "No backups were created" None
           else LogRecord INFO ("Successfully created " +:+
                                pretty (length paths) +:+ " backups") None].
Proof.
  intros backup_dir Hinit Hall.
  exists (Process
            (World (files w') (clock_reads w') (spawned w')
               (log w' ++
                  [if decide (paths = [])
                   then LogRecord WARNING "No backups were created" None
                   else LogRecord INFO ("Successfully created " +:+
                          pretty (length paths) +:+ " backups") None]))
            (proc_dirs p1)).
  split; [|done]. unfold main. fold backup_dir. apply try_ok.
  erewrite bind_ok by exact Hinit.
  erewrite bind_ok by (unfold in_world; by rewrite Hall).
  by destruct paths.
Qed.

Lemma backup_main_exits_zero_witness :
  ∃ p', main (Host (λ _, None)
                (Scenario.listing_env ["shop"; "hr"] [1%Z; 1%Z]) (λ _, None))
          (Process Scenario.fresh_world {["mysql_backups"]}) = (p', Ok 0%Z) ∧
        last (log (proc_world p'))
          = Some (LogRecord WARNING "No backups were created" None).
Proof.
  destruct (backup_main_exits_zero
              (Host (λ _, None)
                 (Scenario.listing_env ["shop"; "hr"] [1%Z; 1%Z]) (λ _, None))
              (Process Scenario.fresh_world {["mysql_backups"]})
              (Process Scenario.fresh_world {["mysql_backups"]})
              (backup_all_databases
                 (Scenario.listing_env ["shop"; "hr"] [1%Z; 1%Z])
                 "localhost" "student" "StrongPassword123" "mysql_backups"
                 Scenario.fresh_world).1 [])
    as (p' & Hrun & _ & _ & Hlog); [by vm_compute | by vm_compute |].
  exists p'. split; [exact Hrun|]. rewrite Hlog. apply last_snoc.
Defined.

(** X14. [main] lets no exception out. Its exit status is 0 or 1; it is 1
    exactly when something raised under the [try], and that exception is
    then the last thing logged. *)
Theorem backup_main_catches_everything (H : host) (p : process) :
  ∃ p' status,
    main H p = (p', Ok status) ∧
    ((status = 0%Z ∧
      ∃ l msg, l ≠ ERROR ∧
        last (log (proc_world p')) = Some (LogRecord l msg None)) ∨
     (status = 1%Z ∧
      ∃ e, last (log (proc_world p'))
             = Some (LogRecord ERROR "An error occurred: " (Some e)))).
Proof.
  unfold main, try_except.
  match goal with
  | |- context [match ?m p with _ => _ end] =>
      destruct (m p) as [p1 [status|e]] eqn:Hbody
  end.
  - eexists _, _. split; [reflexivity|]. left. revert Hbody.
    intros [(p2 & [] & _ & Hrest)|(? & _ & [=])]%bind_inv. revert Hrest.
    intros [(p3 & paths & _ & Hrest)|(? & _ & [=])]%bind_inv. revert Hrest.
    intros [(p4 & [] & Hlog & [= <- <-])|(? & _ & [=])]%bind_inv.
    split; [done|]. destruct paths; rewrite in_world_logging in Hlog;
      injection Hlog as <-; cbn; eexists _, _; (split; [|apply last_snoc]);
      done.
  - rewrite bind_ok with (s' := Process
        (World (files (proc_world p1)) (clock_reads (proc_world p1))
           (spawned (proc_world p1))
           (log (proc_world p1) ++
              [LogRecord ERROR "An error occurred: " (Some e)]))
        (proc_dirs p1)) (a := tt) by apply in_world_logging.
    eexists _, _. split; [reflexivity|]. right. split; [done|].
    exists e. cbn. apply last_snoc.
Qed.

(** X15. When the backup directory is missing and cannot be created,
    [main] ends with exit status 1 after logging the error of
    [os.makedirs]; no child process has been started. *)
Theorem backup_main_makedirs_fails (H : host) (p : process) (e : exn) :
  let backup_dir := getenv H "BACKUP_DIR" "mysql_backups" in
  os_path_exists backup_dir p = (p, Ok false) →
  (if truthy backup_dir then makedirs_error H backup_dir = Some e
   else e = FileNotFoundError backup_dir) →
  ∃ p', main H p = (p', Ok 1%Z) ∧
        spawned (proc_world p') = spawned (proc_world p) ∧
        proc_dirs p' = proc_dirs p ∧
        log (proc_world p') = log (proc_world p) ++
          [LogRecord ERROR "An error occurred: " (Some e)].
Proof.
  intros backup_dir Hmissing He. unfold main. fold backup_dir.
  erewrite try_caught; [| |reflexivity].
  2:{ apply bind_raise. unfold __init__.
      erewrite bind_ok by exact Hmissing. cbn [negb].
      apply bind_raise. unfold os_makedirs.
      destruct (truthy backup_dir); cbn [negb]; [by rewrite He | by subst e]. }
  by eexists.
Qed.

Lemma backup_main_makedirs_fails_witness :
  ∃ p', main (Host (λ _, None) Sample.dump_env
                (λ path, Some (PermissionError path)))
          (Process Scenario.fresh_world ∅) = (p', Ok 1%Z) ∧
        spawned (proc_world p') = 0.
Proof.
  destruct (backup_main_makedirs_fails
              (Host (λ _, None) Sample.dump_env
                 (λ path, Some (PermissionError path)))
              (Process Scenario.fresh_world ∅)
              (PermissionError "mysql_backups"))
    as (p' & Hrun & Hs & _); [reflexivity | reflexivity |].
  exists p'. split; [exact Hrun | exact Hs].
Defined.

End BackupMore.

(** ** More facts about deploy_changes_script.py *)

Module DeployMore.
Import Deploy DeployMain PyFacts PyMore DeployFacts.

(** *** The history file and the connection *)

(** X16. [_init_deployment_history] leaves an existing history file as
    it is, whatever it holds. When no file of that name exists it creates
    the history document, holding the empty list, unless the file cannot
    be opened for writing: then the error of [open] is raised and nothing
    has changed. When it returns, running it again changes nothing; no
    other file is ever touched. *)
Theorem init_deployment_history_idempotent (E : env) (s : state) :
  match files s !! deployment_history_file,
        open_w_error E deployment_history_file with
  | None, Some e => _init_deployment_history E s = (s, Raise e)
  | existing, _ =>
      ∃ s1, _init_deployment_history E s = (s1, Ok tt) ∧
            _init_deployment_history E s1 = (s1, Ok tt) ∧
            match existing with
            | Some _ => s1 = s
            | None =>
                s1 = set_files (<[deployment_history_file :=
                                   File true true (JsonDump (JArray []))]>
                                  (files s)) s
            end ∧
            ∀ path, path ≠ deployment_history_file →
                    files s1 !! path = files s !! path
  end.
Proof.
  unfold _init_deployment_history, bind, gets, create_json, modify, ret.
  destruct (files s !! deployment_history_file) as [f|] eqn:Hf; cbn.
  - destruct (open_w_error E deployment_history_file);
      (exists s; rewrite Hf; cbn; done).
  - destruct (open_w_error E deployment_history_file) as [e|]; [done|].
    eexists. split; [reflexivity|]. cbn. rewrite lookup_insert_eq. cbn.
    split; [done|]. split; [done|].
    intros path Hne. by rewrite lookup_insert_ne.
Qed.

(** X17. [connect] raises nothing. When the driver accepts the
    connection it returns [True] and the deployer holds a live connection;
    when the driver refuses it returns [False], logs the error and leaves
    [self.connection] as it was. Either way one connection attempt is
    made and no file is touched. *)
Theorem connect_outcomes (E : env) (database : string) (s : state) :
  ∃ s' connected,
    connect E database s = (s', Ok connected) ∧
    files s' = files s ∧ db_calls s' = db_calls s ++ [Connect] ∧
    match driver_error E (db_calls s) Connect with
    | None => connected = true ∧ connection s' = Some (MySQLConnection true)
    | Some msg =>
        connected = false ∧ connection s' = connection s ∧
        log s' = log s ++ [LogRecord ERROR "Error connecting to database: "
                                     (Some (MySQLError msg))]
    end.
Proof.
  unfold connect, try_except, bind, driver, modify, logging, ret. cbn.
  destruct (driver_error E (db_calls s) Connect) as [msg|]; cbn;
    by eexists _, _.
Qed.

(** X18. Without a live connection and with a server that refuses the
    connection, [execute_sql_file] returns [False] before it looks at the
    script: the only driver call is the connection attempt, and no file is
    read or changed, so the answer is the same for a path that names no
    file. *)
Theorem execute_sql_file_connection_refused (E : env)
    (database sql_file : string) (s : state) (msg : string) :
  is_live (connection s) = false →
  driver_error E (db_calls s) Connect = Some msg →
  ∃ s', execute_sql_file E database sql_file s = (s', Ok false) ∧
        db_calls s' = db_calls s ++ [Connect] ∧
        files s' = files s ∧ clock_reads s' = clock_reads s ∧
        connection s' = connection s ∧
        log s' = log s ++ [LogRecord ERROR "Error connecting to database: "
                                     (Some (MySQLError msg))].
Proof.
  destruct s as [conn fs cr made lg]. cbn. intros Hlive Hrefused.
  unfold execute_sql_file, connect, try_except, driver, logging, modify, gets,
    ret, bind.
  cbn. rewrite Hlive. cbn. rewrite Hrefused. cbn. by eexists.
Qed.

Lemma execute_sql_file_connection_refused_witness :
  ∃ s', execute_sql_file Scenario.unreachable_env "assignment1" "nope.sql"
          Sample.deploy_state = (s', Ok false) ∧
        db_calls s' = [Connect] ∧ files s' = files Sample.deploy_state.
Proof.
  destruct (execute_sql_file_connection_refused Scenario.unreachable_env
              "assignment1" "nope.sql" Sample.deploy_state
              "2003 (HY000): Can't connect")
    as (s' & Hrun & Hcalls & Hfiles & _); [reflexivity | reflexivity |].
  exists s'. split; [exact Hrun|]. split; [exact Hcalls | exact Hfiles].
Defined.

(** *** Running a script *)

(** The state in which the [try] statement starts. *)
Lemma execute_sql_file_after_guard (E : env) (database sql_file : string)
    conn fs cr made lg :
  let s := State conn fs cr made lg in
  accepted E made (connect_calls s) →
  execute_sql_file E database sql_file s
  = execute_sql_file_try E sql_file
      (State (if is_live conn then conn else Some (MySQLConnection true))
         fs cr (made ++ connect_calls s)
         (if is_live conn then lg
          else lg ++ [LogRecord INFO
                        ("Successfully connected to database: " +:+ database)
                        None])).
Proof.
  intros s. unfold connect_calls, s. cbn [connection].
  unfold execute_sql_file.
  erewrite bind_ok by reflexivity. cbn [connection].
  destruct (is_live conn) eqn:Hlive; cbn [negb].
  - intros _. erewrite bind_ok by reflexivity. cbn.
    by rewrite List.app_nil_r.
  - intros [Hconn _].
    erewrite bind_ok.
    2:{ unfold connect. apply try_ok.
        erewrite bind_ok by (by apply driver_accepted).
        erewrite bind_ok by reflexivity.
        erewrite bind_ok by reflexivity. reflexivity. }
    reflexivity.
Qed.

(** The loop stops at the first call the driver rejects, be it the
    execution of a statement or a commit. *)
Lemma run_commands_first_error (E : env) sql_commands :
  ∀ made_ok c rest conn fs cr made lg msg,
  statement_calls (filter (λ c, blank c = false) sql_commands)
    = made_ok ++ c :: rest →
  accepted E made made_ok →
  driver_error E (made ++ made_ok) c = Some msg →
  for_each sql_commands (run_command E) (State conn fs cr made lg)
  = (State conn fs cr (made ++ made_ok ++ [c]) lg, Raise (MySQLError msg)).
Proof.
  induction sql_commands as [|command commands IH];
    intros made_ok c rest conn fs cr made lg msg Hsplit Hacc Hbad.
  { by destruct made_ok. }
  rewrite filter_cons in Hsplit. cbn [for_each].
  unfold run_command at 1. rewrite truthy_strip.
  destruct (blank command) eqn:Hb; cbn [negb].
  - rewrite decide_False in Hsplit by done.
    erewrite bind_ok by reflexivity. by eapply IH.
  - rewrite decide_True in Hsplit by done.
    rewrite statement_calls_cons in Hsplit.
    destruct made_ok as [|d1 [|d2 made_ok]]; simplify_eq/=.
    + rewrite List.app_nil_r in Hbad.
      erewrite bind_raise; [done|].
      erewrite bind_raise; [done|]. by apply driver_rejected.
    + destruct Hacc as [Hexec _].
      erewrite bind_raise; [done|].
      erewrite bind_ok by (by apply driver_accepted).
      rewrite (driver_rejected E Commit _ _ _ _ _ msg) by done.
      by rewrite <- (assoc_L (++)).
    + destruct Hacc as (Hexec & Hcommit & Hacc).
      erewrite bind_ok; [|erewrite bind_ok;
        [by apply driver_accepted | by apply driver_accepted]].
      rewrite (IH made_ok c rest _ _ _
                 ((made ++ [Execute command]) ++ [Commit]) _ msg);
        [|done|exact Hacc|].
      * by rewrite <- !(assoc_L (++)).
      * rewrite <- !(assoc_L (++)). exact Hbad.
Qed.

Lemma snoc_eq_app_cons {A} (l : list A) x made_ok c rest :
  l ++ [x] = made_ok ++ c :: rest →
  (rest = [] ∧ made_ok = l ∧ c = x) ∨
  (∃ rest', rest = rest' ++ [x] ∧ l = made_ok ++ c :: rest').
Proof.
  destruct rest as [|r rest _] using rev_ind.
  - intros [-> ->]%(app_inj_tail l made_ok x c). by left.
  - intros H. right. exists rest.
    replace (made_ok ++ c :: rest ++ [r])
      with ((made_ok ++ c :: rest) ++ [r]) in H
      by (by rewrite <- (assoc_L (++))).
    by apply app_inj_tail in H as [-> ->].
Qed.

Lemma execute_sql_file_try_first_error (E : env) (sql_file : string)
    conn fs cr made lg f made_ok c rest msg :
  fs !! sql_file = Some f → readable f = true →
  Cursor :: statement_calls (statements (read E (data f))) ++ [CursorClose]
    = made_ok ++ c :: rest →
  accepted E made made_ok →
  driver_error E (made ++ made_ok) c = Some msg →
  execute_sql_file_try E sql_file (State conn fs cr made lg)
  = (State conn fs cr (made ++ made_ok ++ [c])
       (lg ++ [LogRecord ERROR
                 ("Error executing SQL file " +:+ sql_file +:+ ": ")
                 (Some (MySQLError msg))]),
     Ok false).
Proof.
  intros Hf Hr Hsplit Hacc Hbad. unfold execute_sql_file_try.
  assert ((let! f := open_r sql_file in
           let sql_commands := split ";"%char (read E f) in
           let! _ := driver E Cursor in
           let! _ := for_each sql_commands (run_command E) in
           let! _ := driver E CursorClose in
           let! _ := _record_deployment E sql_file in
           let! _ := logging INFO ("Successfully executed SQL file: " +:+
                                   sql_file) None in
           ret true) (State conn fs cr made lg)
          = (State conn fs cr (made ++ made_ok ++ [c]) lg,
             Raise (MySQLError msg))) as Hbody.
  { erewrite bind_ok by (by eapply open_r_readable). cbn zeta.
    destruct made_ok as [|d made_ok]; cbn [app] in Hsplit.
    { injection Hsplit as <- _. rewrite List.app_nil_r in Hbad.
      apply bind_raise. by apply driver_rejected. }
    injection Hsplit as <- Hsplit. destruct Hacc as [Hcursor Hacc].
    erewrite bind_ok by (by apply driver_accepted).
    apply snoc_eq_app_cons in Hsplit
      as [(-> & -> & ->)|(rest' & -> & Hsplit)].
    - erewrite bind_ok by (by apply run_commands_accepted).
      apply bind_raise.
      rewrite (driver_rejected E CursorClose _ _ _ _ _ msg)
        by (by rewrite <- (assoc_L (++))).
      by rewrite <- !(assoc_L (++)).
    - apply bind_raise.
      erewrite run_commands_first_error;
        [|exact Hsplit|done|by rewrite <- (assoc_L (++))].
      by rewrite <- !(assoc_L (++)). }
  erewrite try_caught; [|exact Hbody|reflexivity]. reflexivity.
Qed.

(** X19. The first driver call of a run that raises, be it the cursor,
    the execution of a statement, a commit or the closing of the cursor,
    ends the run: [execute_sql_file] returns [False], no later call is
    made, and no file is changed. A statement whose commit raised has been
    executed, and a script whose cursor fails to close has been executed
    and committed in full, yet is not recorded. *)
Theorem execute_sql_file_first_driver_error (E : env)
    (database sql_file : string) (s : state) (f : file)
    (made_ok : list db_call) (c : db_call) (rest : list db_call)
    (msg : string) :
  files s !! sql_file = Some f → readable f = true →
  Cursor :: statement_calls (statements (read E (data f))) ++ [CursorClose]
    = made_ok ++ c :: rest →
  accepted E (db_calls s) (connect_calls s ++ made_ok) →
  driver_error E (db_calls s ++ connect_calls s ++ made_ok) c = Some msg →
  ∃ s', execute_sql_file E database sql_file s = (s', Ok false) ∧
        db_calls s' = db_calls s ++ connect_calls s ++ made_ok ++ [c] ∧
        files s' = files s ∧ clock_reads s' = clock_reads s ∧
        last (log s') = Some (LogRecord ERROR
                 ("Error executing SQL file " +:+ sql_file +:+ ": ")
                 (Some (MySQLError msg))).
Proof.
  intros Hf Hr Hsplit [Hconn Hacc]%accepted_app Hbad.
  destruct s as [conn fs cr made lg]. cbn [db_calls files] in *.
  rewrite (execute_sql_file_after_guard E database sql_file conn fs cr made lg
             Hconn).
  rewrite (assoc_L (++)) in Hbad.
  rewrite (execute_sql_file_try_first_error E sql_file _ fs cr _ _ f
             made_ok c rest msg Hf Hr Hsplit Hacc Hbad).
  eexists. split; [reflexivity|]. cbn.
  split; [by rewrite <- (assoc_L (++))|]. repeat split. apply last_snoc.
Qed.

Lemma execute_sql_file_first_driver_error_witness :
  ∃ s', execute_sql_file Scenario.no_commit_env "assignment1"
          "add_column.sql" Sample.deploy_state = (s', Ok false) ∧
        db_calls s' = [Connect; Cursor;
                       Execute "ALTER TABLE t ADD COLUMN c INT"; Commit] ∧
        files s' = files Sample.deploy_state.
Proof.
  destruct (execute_sql_file_first_driver_error Scenario.no_commit_env
              "assignment1" "add_column.sql" Sample.deploy_state
              (Sample.script Sample.good_sql)
              [Cursor; Execute "ALTER TABLE t ADD COLUMN c INT"] Commit
              [Execute "UPDATE t SET c = 0"; Commit; CursorClose]
              "1180 (HY000): Got error during COMMIT")
    as (s' & Hrun & Hcalls & Hfiles & _);
    [reflexivity | reflexivity | reflexivity | cbn; repeat split
    | reflexivity |].
  exists s'. split; [exact Hrun|]. split; [exact Hcalls | exact Hfiles].
Defined.

Lemma execute_sql_file_recorded (E : env) (database sql_file : string)
    (s : state) (f : file) (entries : list json) :
  let calls := connect_calls s ++
               Cursor :: statement_calls (statements (read E (data f)))
                 ++ [CursorClose] in
  files s !! sql_file = Some f → readable f = true →
  accepted E (db_calls s) calls →
  history_is E s entries →
  ∃ s', execute_sql_file E database sql_file s = (s', Ok true) ∧
        db_calls s' = db_calls s ++ calls ∧
        history_is E s'
          (entries ++ [deployment_record (isoformat_now E (clock_reads s))
                         sql_file]) ∧
        (∀ path, path ≠ deployment_history_file →
                 files s' !! path = files s !! path) ∧
        is_live (connection s') = true ∧
        last (log s') = Some (LogRecord INFO
                 ("Successfully executed SQL file: " +:+ sql_file) None).
Proof.
  intros calls Hf Hr [Hconn Hacc]%accepted_app Hh.
  destruct s as [conn fs cr made lg]. cbn [db_calls files clock_reads] in *.
  rewrite (execute_sql_file_after_guard E database sql_file conn fs cr made lg
             Hconn).
  rewrite (execute_sql_file_try_accepted E sql_file _ fs cr _ _ f Hf Hr Hacc).
  set (conn' := if is_live conn then conn else Some (MySQLConnection true)).
  match goal with
  | |- context [_record_deployment E sql_file (State conn' fs cr ?m ?l)] =>
      assert (history_is E (State conn' fs cr m l) entries) as Hh'
        by exact Hh;
      pose proof (record_deployment_appends E sql_file _ _ _ _ _ _ Hh')
        as Hrec;
      pose proof (history_is_after_record E sql_file _ _ _ _ _ _ _ Hh' Hrec)
        as Hafter
  end.
  cbn zeta in Hrec. rewrite Hrec.
  eexists. split; [reflexivity|]. cbn.
  split; [by rewrite <- (assoc_L (++))|].
  split; [exact Hafter|].
  split; [intros path Hne; by rewrite lookup_alter_ne|].
  split; [|apply last_snoc].
  unfold conn'. by destruct (is_live conn) eqn:Hl.
Qed.

(** X20. When the script is readable, the driver raises on no call of
    the run and the history document is well formed, [execute_sql_file]
    returns [True]: the deployer holds a live connection, the history has
    gained exactly one record, for this script and stamped with the next
    reading of the clock, and no other file has changed. *)
Theorem execute_sql_file_success (E : env) (database sql_file : string)
    (s : state) (f : file) (entries : list json) :
  files s !! sql_file = Some f → readable f = true →
  accepted E (db_calls s)
    (connect_calls s ++
     Cursor :: statement_calls (statements (read E (data f)))
       ++ [CursorClose]) →
  history_is E s entries →
  ∃ s', execute_sql_file E database sql_file s = (s', Ok true) ∧
        history_is E s'
          (entries ++ [deployment_record (isoformat_now E (clock_reads s))
                         sql_file]) ∧
        (∀ path, path ≠ deployment_history_file →
                 files s' !! path = files s !! path) ∧
        is_live (connection s') = true ∧
        last (log s') = Some (LogRecord INFO
                 ("Successfully executed SQL file: " +:+ sql_file) None).
Proof.
  intros Hf Hr Hacc Hh.
  destruct (execute_sql_file_recorded E database sql_file s f entries
              Hf Hr Hacc Hh) as (s' & Hrun & _ & Hrest).
  by exists s'.
Qed.

Lemma execute_sql_file_success_witness :
  ∃ s', execute_sql_file Sample.deploy_env "assignment1" "add_column.sql"
          Sample.deploy_state = (s', Ok true) ∧
        history_is Sample.deploy_env s'
          [deployment_record "2024-03-05T12:00:00" "add_column.sql"].
Proof.
  destruct (execute_sql_file_success Sample.deploy_env "assignment1"
              "add_column.sql" Sample.deploy_state
              (Sample.script Sample.good_sql) [])
    as (s' & Hrun & Hh & _).
  - reflexivity.
  - reflexivity.
  - cbn. repeat split.
  - exists Sample.empty_history. repeat split.
  - exists s'. split; [exact Hrun | exact Hh].
Defined.

(** What [_record_deployment] needs in order to return. *)
Lemma record_deployment_ok_inv (E : env) (sql_file : string) (s s' : state) :
  _record_deployment E sql_file s = (s', Ok tt) →
  ∃ entries, history_is E s entries.
Proof.
  unfold _record_deployment, bind, now_isoformat, open_rw, json_load,
    append, rewrite_json, modify, ret, raise, history_is. cbn.
  destruct (files s !! deployment_history_file) as [f|]; cbn; [|done].
  destruct (readable f) eqn:Hr, (writable f) eqn:Hw; cbn; try done.
  destruct (data f) as [t|v] eqn:Hd;
    [destruct (json_loads E t) as [v|] eqn:Hl|]; try destruct v;
    cbn; try done; intros _; eexists _, f; rewrite Hd; cbn; by rewrite ?Hl.
Qed.

Lemma record_deployment_raises_log (E : env) (sql_file : string)
    (s s' : state) e :
  _record_deployment E sql_file s = (s', Raise e) →
  log s' = log s ∧ connection s' = connection s ∧
  clock_reads s' = S (clock_reads s).
Proof.
  unfold _record_deployment, bind, now_isoformat, open_rw, json_load,
    append, rewrite_json, modify, ret, raise. cbn.
  destruct (files s !! deployment_history_file) as [f|]; cbn;
    [|by intros [= <- <-]].
  destruct (readable f && writable f); cbn; [|by intros [= <- <-]].
  destruct (data f) as [t|v]; [destruct (json_loads E t) as [v|]|];
    try destruct v; cbn; by intros [= <- <-].
Qed.

(** X21. When every statement of the script has been executed and
    committed but the history document cannot be updated (it is missing,
    not readable and writable, not JSON, or not a list),
    [execute_sql_file] does not return: the error of the recording
    propagates, it is no driver error, nothing is logged as a failure, and
    the deployment that took place is recorded nowhere. *)
Theorem execute_sql_file_unrecorded (E : env) (database sql_file : string)
    (s : state) (f : file) :
  let calls := connect_calls s ++
               Cursor :: statement_calls (statements (read E (data f)))
                 ++ [CursorClose] in
  files s !! sql_file = Some f → readable f = true →
  accepted E (db_calls s) calls →
  (∀ entries, ¬ history_is E s entries) →
  ∃ s' e, execute_sql_file E database sql_file s = (s', Raise e) ∧
          (∀ msg, e ≠ MySQLError msg) ∧
          db_calls s' = db_calls s ++ calls ∧
          files s' = files s ∧
          (log s' = log s ∨
           log s' = log s ++ [LogRecord INFO
                      ("Successfully connected to database: " +:+ database)
                      None]).
Proof.
  intros calls Hf Hr [Hconn Hacc]%accepted_app Hno.
  destruct s as [conn fs cr made lg]. cbn [db_calls files log] in *.
  rewrite (execute_sql_file_after_guard E database sql_file conn fs cr made lg
             Hconn).
  rewrite (execute_sql_file_try_accepted E sql_file _ fs cr _ _ f Hf Hr Hacc).
  destruct (_record_deployment E sql_file _) as [s' [[]|e]] eqn:Hrec.
  - apply record_deployment_ok_inv in Hrec as [entries Hh].
    destruct (Hno entries). exact Hh.
  - pose proof (record_deployment_raises_log E _ _ _ _ Hrec) as (Hlog & _).
    apply record_deployment_raises in Hrec as (Hne & Hfiles & Hcalls).
    eexists _, _. split; [reflexivity|]. split; [done|].
    cbn in Hfiles, Hcalls, Hlog.
    split; [by rewrite Hcalls, <- (assoc_L (++))|]. split; [done|].
    rewrite Hlog. destruct (is_live conn); [by left | by right].
Qed.

Lemma execute_sql_file_unrecorded_witness :
  ∃ s', execute_sql_file Sample.deploy_env "assignment1" "add_column.sql"
          Scenario.clobbered_state = (s', Raise (AttributeError "append")) ∧
        db_calls s' = [Connect; Cursor;
                       Execute "ALTER TABLE t ADD COLUMN c INT"; Commit;
                       Execute "UPDATE t SET c = 0"; Commit; CursorClose].
Proof.
  destruct (execute_sql_file_unrecorded Sample.deploy_env "assignment1"
              "add_column.sql" Scenario.clobbered_state
              (Sample.script Sample.good_sql))
    as (s' & e & Hrun & _ & Hcalls & _).
  - reflexivity.
  - reflexivity.
  - cbn. repeat split.
  - intros entries (f & Hf & _ & _ & Hp). vm_compute in Hf.
    injection Hf as <-. discriminate Hp.
  - exists s'. split; [|exact Hcalls].
    rewrite Hrun. vm_compute in Hrun. by injection Hrun as _ <-.
Defined.

(** X22. When the history document is not a well-formed list that can be
    read and updated, [_record_deployment] raises, with the error that
    tells the cause, after reading the clock; the file is not truncated
    and no file is changed. *)
Theorem record_deployment_failure_modes (E : env) (sql_file : string)
    (s : state) :
  (∀ entries, ¬ history_is E s entries) →
  ∃ s' e, _record_deployment E sql_file s = (s', Raise e) ∧
          files s' = files s ∧ clock_reads s' = S (clock_reads s) ∧
          e = match files s !! deployment_history_file with
              | None => FileNotFoundError deployment_history_file
              | Some f =>
                  if readable f && writable f then
                    match parsed E (data f) with
                    | None => JSONDecodeError
                    | Some _ => AttributeError "append"
                    end
                  else PermissionError deployment_history_file
              end.
Proof.
  intros Hno.
  destruct (_record_deployment E sql_file s) as [s' [[]|e]] eqn:Hrec.
  { apply record_deployment_ok_inv in Hrec as [entries Hh].
    by destruct (Hno entries). }
  pose proof (record_deployment_raises E _ _ _ _ Hrec) as (_ & Hfiles & _).
  pose proof (record_deployment_raises_log E _ _ _ _ Hrec) as (_ & _ & Hclock).
  exists s', e. repeat split; try done.
  revert Hrec.
  unfold _record_deployment, bind, now_isoformat, open_rw, json_load,
    append, rewrite_json, modify, ret, raise, parsed. cbn.
  destruct (files s !! deployment_history_file) as [f|]; cbn;
    [|by intros [= _ <-]].
  destruct (readable f && writable f); cbn; [|by intros [= _ <-]].
  destruct (data f) as [t|v]; [destruct (json_loads E t) as [v|]|];
    try destruct v; cbn; by intros [= _ <-].
Qed.

Lemma record_deployment_failure_modes_witness :
  ∃ s', _record_deployment Sample.deploy_env "add_column.sql"
          Scenario.first_run_state
        = (s', Raise (FileNotFoundError "deployment_history.json")) ∧
        files s' = files Scenario.first_run_state.
Proof.
  destruct (record_deployment_failure_modes Sample.deploy_env
              "add_column.sql" Scenario.first_run_state)
    as (s' & e & Hrun & Hfiles & _ & ->).
  - intros entries (f & Hf & _). vm_compute in Hf. discriminate Hf.
  - exists s'. split; [exact Hrun | exact Hfiles].
Defined.

(** *** What the methods never do *)

Section Respects.
Context (R : state → state → Prop).
Hypothesis R_refl : ∀ s, R s s.
Hypothesis R_trans : ∀ s1 s2 s3, R s1 s2 → R s2 s3 → R s1 s3.

Lemma respects_ret {A} (a : A) : respects R (ret a).
Proof. intros s s' r [= <- _]. apply R_refl. Qed.

Lemma respects_raise {A} e : respects R (raise (A := A) e).
Proof. intros s s' r [= <- _]. apply R_refl. Qed.

Lemma respects_gets {A} (f : state → A) : respects R (gets f).
Proof. intros s s' r [= <- _]. apply R_refl. Qed.

Lemma respects_bind {A B} (m : M state A) (k : A → M state B) :
  respects R m → (∀ a, respects R (k a)) → respects R (bind m k).
Proof.
  intros Hm Hk s s' r [(s1 & a & H1 & H2)|(e & H1 & _)]%bind_inv.
  - eapply R_trans; [by eapply Hm | by eapply Hk].
  - by eapply Hm.
Qed.

Lemma respects_try {A} (m : M state A) (h : exn → option (M state A)) :
  respects R m → (∀ e h', h e = Some h' → respects R h') →
  respects R (try_except m h).
Proof.
  intros Hm Hh s s' r. unfold try_except.
  destruct (m s) as [s1 [a|e]] eqn:H1.
  - intros [= <- _]. by eapply Hm.
  - destruct (h e) as [h'|] eqn:He.
    + intros H2. eapply R_trans; [by eapply Hm | by eapply Hh].
    + intros [= <- _]. by eapply Hm.
Qed.

Lemma respects_for_each {A} (xs : list A) (body : A → M state unit) :
  (∀ x, x ∈ xs → respects R (body x)) → respects R (for_each xs body).
Proof.
  induction xs as [|x xs IH]; intros Hbody; cbn [for_each].
  - apply respects_ret.
  - apply respects_bind.
    + apply Hbody. by left.
    + intros _. apply IH. intros y Hy. apply Hbody. by right.
Qed.
End Respects.

Lemma calls_extended_refl P s : calls_extended P s s.
Proof. exists []. by rewrite List.app_nil_r. Qed.

Lemma calls_extended_trans P s1 s2 s3 :
  calls_extended P s1 s2 → calls_extended P s2 s3 → calls_extended P s1 s3.
Proof.
  intros (e1 & H1 & HP1) (e2 & H2 & HP2). exists (e1 ++ e2).
  split; [by rewrite H2, H1, <- (assoc_L (++)) | by apply Forall_app].
Qed.

Lemma calls_extended_same P s s' :
  db_calls s' = db_calls s → calls_extended P s s'.
Proof. intros H. exists []. by rewrite H, List.app_nil_r. Qed.

Lemma respects_calls_driver (E : env) (P : db_call → Prop) c :
  P c → respects (calls_extended P) (driver E c).
Proof.
  intros Hc s s' r. unfold driver.
  destruct (driver_error E (db_calls s) c); intros [= <- _];
    exists [c]; by repeat constructor.
Qed.

Lemma respects_calls_logging P l msg e :
  respects (calls_extended P) (logging l msg e).
Proof. intros s s' r [= <- _]. by apply calls_extended_same. Qed.

Lemma respects_calls_record (E : env) P sql_file :
  respects (calls_extended P) (_record_deployment E sql_file).
Proof.
  intros s s' r Hrun. apply calls_extended_same.
  pose proof (record_deployment_db_calls E sql_file s) as H.
  by rewrite Hrun in H.
Qed.

Lemma respects_calls_open_r P path :
  respects (calls_extended P) (open_r path).
Proof.
  intros s s' r. unfold open_r.
  destruct (files s !! path) as [f|]; [destruct (readable f)|];
    intros [= <- _]; apply calls_extended_refl.
Qed.

(** One step through a [let!], a [try] or a final [ret], for the relation
    [calls_extended]. *)
Ltac calls_bind :=
  apply respects_bind; [apply calls_extended_trans | | intros ?].
Ltac calls_try :=
  apply respects_try; [apply calls_extended_trans | | ].
Ltac calls_ret := apply respects_ret, calls_extended_refl.

Lemma respects_calls_connect (E : env) database :
  respects (calls_extended script_call) (connect E database).
Proof.
  unfold connect. calls_try.
  - calls_bind; [by apply respects_calls_driver|].
    calls_bind; [intros s s' r [= <- _]; by apply calls_extended_same|].
    calls_bind; [apply respects_calls_logging|]. calls_ret.
  - intros e h'. destruct e; cbn; try done. intros [= <-].
    calls_bind; [apply respects_calls_logging|]. calls_ret.
Qed.

Lemma respects_calls_run_command (E : env) command :
  contains ";"%char command = false →
  respects (calls_extended script_call) (run_command E command).
Proof.
  intros Hfree. unfold run_command. rewrite truthy_strip.
  destruct (blank command) eqn:Hb; cbn [negb]; [calls_ret|].
  calls_bind; by apply respects_calls_driver.
Qed.

Lemma respects_calls_execute_sql_file (E : env) database sql_file :
  respects (calls_extended script_call) (execute_sql_file E database sql_file).
Proof.
  unfold execute_sql_file.
  calls_bind; [apply respects_gets, calls_extended_refl|].
  calls_bind.
  { destruct (negb _); [apply respects_calls_connect | calls_ret]. }
  destruct (negb _); [calls_ret|].
  unfold execute_sql_file_try. calls_try.
  - calls_bind; [apply respects_calls_open_r|]. cbn zeta.
    calls_bind; [by apply respects_calls_driver|].
    calls_bind.
    { apply respects_for_each;
        [apply calls_extended_refl | apply calls_extended_trans |].
      intros command Hin. apply respects_calls_run_command.
      match goal with
      | |- contains _ _ = false =>
          match type of Hin with
          | _ ∈ split _ ?text =>
              pose proof (split_pieces_free ";"%char text) as Hfree
          end
      end.
      rewrite Forall_forall in Hfree. by apply Hfree. }
    calls_bind; [by apply respects_calls_driver|].
    calls_bind; [apply respects_calls_record|].
    calls_bind; [apply respects_calls_logging|]. calls_ret.
  - intros e h'. destruct e; cbn; try done. intros [= <-].
    calls_bind; [apply respects_calls_logging|]. calls_ret.
Qed.


Lemma history_kept_refl E s : history_kept E s s.
Proof.
  split; [done|]. intros entries Hh. exists []. by rewrite List.app_nil_r.
Qed.

Lemma history_kept_trans E s1 s2 s3 :
  history_kept E s1 s2 → history_kept E s2 s3 → history_kept E s1 s3.
Proof.
  intros [Hf1 Hh1] [Hf2 Hh2]. split.
  - intros path Hne. by rewrite Hf2, Hf1.
  - intros entries Hh. destruct (Hh1 _ Hh) as (m1 & H1).
    destruct (Hh2 _ H1) as (m2 & H2). exists (m1 ++ m2).
    by rewrite (assoc_L (++)).
Qed.

Lemma history_kept_same_files E s s' :
  files s' = files s → history_kept E s s'.
Proof.
  intros Hf. split; [by rewrite Hf|].
  intros entries (f & Hfile & Hrest). exists []. rewrite List.app_nil_r.
  exists f. by rewrite Hf.
Qed.

Ltac kept_bind :=
  apply respects_bind; [apply history_kept_trans | | intros ?].
Ltac kept_try :=
  apply respects_try; [apply history_kept_trans | | ].
Ltac kept_ret := apply respects_ret, history_kept_refl.
Ltac kept_same :=
  let s := fresh in let s' := fresh in let r := fresh in
  intros s s' r [= <- _]; by apply history_kept_same_files.

Lemma respects_kept_driver (E : env) c :
  respects (history_kept E) (driver E c).
Proof.
  intros s s' r. unfold driver.
  destruct (driver_error E (db_calls s) c); intros [= <- _];
    by apply history_kept_same_files.
Qed.

Lemma respects_kept_logging (E : env) l msg e :
  respects (history_kept E) (logging l msg e).
Proof. kept_same. Qed.

Lemma respects_kept_open_r (E : env) path :
  respects (history_kept E) (open_r path).
Proof.
  intros s s' r. unfold open_r.
  destruct (files s !! path) as [f|]; [destruct (readable f)|];
    intros [= <- _]; apply history_kept_refl.
Qed.

Lemma respects_kept_record (E : env) sql_file :
  respects (history_kept E) (_record_deployment E sql_file).
Proof.
  intros s s' [[]|e] Hrun.
  - destruct (record_deployment_ok_inv E _ _ _ Hrun) as [entries Hh].
    destruct s as [conn fs cr made lg].
    pose proof (history_is_after_record E _ _ _ _ _ _ _ _ Hh Hrun) as Hafter.
    rewrite (record_deployment_appends E _ _ _ _ _ _ _ Hh) in Hrun.
    injection Hrun as <-. split.
    + intros path Hne. cbn. by rewrite lookup_alter_ne.
    + intros entries0 Hh0. eexists.
      assert (entries0 = entries) as ->; [|exact Hafter].
      destruct Hh as (f & Hf & _ & _ & Hp), Hh0 as (f0 & Hf0 & _ & _ & Hp0).
      by simplify_eq.
  - apply history_kept_same_files.
    by apply record_deployment_raises in Hrun as (_ & ? & _).
Qed.

Lemma respects_kept_connect (E : env) database :
  respects (history_kept E) (connect E database).
Proof.
  unfold connect. kept_try.
  - kept_bind; [apply respects_kept_driver|].
    kept_bind; [kept_same|].
    kept_bind; [apply respects_kept_logging|]. kept_ret.
  - intros e h'. destruct e; cbn; try done. intros [= <-].
    kept_bind; [apply respects_kept_logging|]. kept_ret.
Qed.

Lemma respects_kept_disconnect (E : env) :
  respects (history_kept E) disconnect.
Proof.
  unfold disconnect. kept_bind; [apply respects_gets, history_kept_refl|].
  destruct a; [|kept_ret].
  kept_bind; [kept_same | apply respects_kept_logging].
Qed.

Lemma respects_kept_init (E : env) :
  respects (history_kept E) (_init_deployment_history E).
Proof.
  intros s s' r.
  unfold _init_deployment_history, bind, gets, create_json, modify, ret.
  destruct (files s !! deployment_history_file) as [f|] eqn:Hf; cbn;
    rewrite ?Hf; cbn; [intros [= <- _]; apply history_kept_refl|].
  destruct (open_w_error E deployment_history_file);
    intros [= <- _]; [apply history_kept_refl|].
  split.
  - intros path Hne. cbn. by rewrite lookup_insert_ne.
  - intros entries (f & Hf' & _). congruence.
Qed.

Lemma respects_kept_execute_sql_file (E : env) database sql_file :
  respects (history_kept E) (execute_sql_file E database sql_file).
Proof.
  unfold execute_sql_file.
  kept_bind; [apply respects_gets, history_kept_refl|].
  kept_bind.
  { destruct (negb _); [apply respects_kept_connect | kept_ret]. }
  destruct (negb _); [kept_ret|].
  unfold execute_sql_file_try. kept_try.
  - kept_bind; [apply respects_kept_open_r|]. cbn zeta.
    kept_bind; [apply respects_kept_driver|].
    kept_bind.
    { apply respects_for_each;
        [apply history_kept_refl | apply history_kept_trans |].
      intros command _. unfold run_command.
      destruct (truthy _); [|kept_ret].
      kept_bind; apply respects_kept_driver. }
    kept_bind; [apply respects_kept_driver|].
    kept_bind; [apply respects_kept_record|].
    kept_bind; [apply respects_kept_logging|]. kept_ret.
  - intros e h'. destruct e; cbn; try done. intros [= <-].
    kept_bind; [apply respects_kept_logging|]. kept_ret.
Qed.

(** X24. The history document is append-only under every method of the
    deployer: whatever [connect], [disconnect], [execute_sql_file],
    [_record_deployment], [get_deployment_history] and
    [_init_deployment_history] meet, they change no file but the history
    document, and the entries of a well-formed history are all still
    there afterwards, in place, at most followed by new ones. *)
Theorem deployer_keeps_history (E : env) (database sql_file : string) :
  respects (history_kept E) (connect E database) ∧
  respects (history_kept E) disconnect ∧
  respects (history_kept E) (execute_sql_file E database sql_file) ∧
  respects (history_kept E) (_record_deployment E sql_file) ∧
  respects (history_kept E) (get_deployment_history E) ∧
  respects (history_kept E) (_init_deployment_history E).
Proof.
  split; [apply respects_kept_connect|].
  split; [apply respects_kept_disconnect|].
  split; [apply respects_kept_execute_sql_file|].
  split; [apply respects_kept_record|].
  split; [|apply respects_kept_init].
  unfold get_deployment_history.
  kept_bind; [apply respects_kept_open_r|].
  intros s s' r. unfold json_load.
  destruct a as [t|v]; [destruct (json_loads E t)|];
    intros [= <- _]; apply history_kept_refl.
Qed.

Lemma split_no_statement text :
  no_statement text = true →
  Forall (λ piece, blank piece = true) (split ";"%char text).
Proof.
  induction text as [|c text IH]; cbn; [by repeat constructor|].
  intros [Hc Htext]%andb_prop. specialize (IH Htext).
  case_decide as Hsep; [by constructor|].
  rewrite bool_decide_eq_false_2, orb_false_r in Hc by done.
  pose proof (split_not_nil ";"%char text) as Hne.
  destruct (split ";"%char text) as [|piece pieces]; [done|].
  inversion IH as [|? ? Hpiece Hpieces]; subst.
  constructor; [|done]. cbn. by rewrite Hc.
Qed.

Lemma statements_no_statement text :
  no_statement text = true → statements text = [].
Proof.
  intros Hall%split_no_statement. unfold statements.
  induction Hall as [|piece pieces Hpiece _ IH]; [done|].
  rewrite filter_cons, decide_False by (by rewrite Hpiece). exact IH.
Qed.

(** X25. A script that holds no statement (it is empty, or made of white
    space and separators only) is deployed as any other: nothing is
    executed and nothing is committed, yet [execute_sql_file] returns
    [True] and records the script in the history as a success. *)
Theorem execute_sql_file_no_statement (E : env) (database sql_file : string)
    (s : state) (f : file) (entries : list json) :
  files s !! sql_file = Some f → readable f = true →
  no_statement (read E (data f)) = true →
  accepted E (db_calls s) (connect_calls s ++ [Cursor; CursorClose]) →
  history_is E s entries →
  ∃ s', execute_sql_file E database sql_file s = (s', Ok true) ∧
        db_calls s' = db_calls s ++ connect_calls s ++ [Cursor; CursorClose] ∧
        history_is E s'
          (entries ++ [deployment_record (isoformat_now E (clock_reads s))
                         sql_file]).
Proof.
  intros Hf Hr Hnone Hacc Hh.
  destruct (execute_sql_file_recorded E database sql_file s f entries Hf Hr)
    as (s' & Hrun & Hcalls & Hafter & _).
  - by rewrite (statements_no_statement _ Hnone).
  - exact Hh.
  - exists s'. split; [exact Hrun|]. split; [|exact Hafter].
    by rewrite (statements_no_statement _ Hnone) in Hcalls.
Qed.

Lemma execute_sql_file_no_statement_witness :
  ∃ s', execute_sql_file Sample.deploy_env "assignment1" "blank.sql"
          (set_files (<["blank.sql" := Sample.script " ; ;"]>
                        (files Sample.deploy_state)) Sample.deploy_state)
        = (s', Ok true) ∧
        db_calls s' = [Connect; Cursor; CursorClose] ∧
        history_is Sample.deploy_env s'
          [deployment_record "2024-03-05T12:00:00" "blank.sql"].
Proof.
  destruct (execute_sql_file_no_statement Sample.deploy_env "assignment1"
              "blank.sql"
              (set_files (<["blank.sql" := Sample.script " ; ;"]>
                            (files Sample.deploy_state)) Sample.deploy_state)
              (Sample.script " ; ;") [])
    as (s' & Hrun & Hcalls & Hh).
  - reflexivity.
  - reflexivity.
  - reflexivity.
  - cbn. repeat split.
  - exists Sample.empty_history. repeat split.
  - exists s'. split; [exact Hrun|]. split; [exact Hcalls | exact Hh].
Defined.

(** *** [main] *)

Lemma disconnect_closes (s : state) :
  ∃ s1, disconnect s = (s1, Ok tt) ∧ is_live (connection s1) = false ∧
        files s1 = files s ∧
        db_calls s1 = db_calls s ++
                      (if is_live (connection s) then [Close] else []).
Proof.
  destruct s as [[[[]]|] fs cr made lg];
    (eexists; split; [reflexivity|]); cbn; by rewrite ?List.app_nil_r.
Qed.

(** Up to the recording of the deployment, [execute_sql_file] writes no
    file. *)
Lemma respects_files_driver (E : env) c :
  respects (λ s s', files s' = files s) (driver E c).
Proof.
  intros s s' r. unfold driver.
  destruct (driver_error E _ _); by intros [= <- _].
Qed.

Lemma respects_files_logging l msg e :
  respects (λ s s', files s' = files s) (logging l msg e).
Proof. by intros s s' r [= <- _]. Qed.

Lemma respects_files_connect (E : env) database :
  respects (λ s s', files s' = files s) (connect E database).
Proof.
  unfold connect. apply respects_try; [congruence| |].
  - apply respects_bind; [congruence|apply respects_files_driver|intros ?].
    apply respects_bind; [congruence|by intros s s' r [= <- _]|intros ?].
    apply respects_bind; [congruence|apply respects_files_logging|intros ?].
    by apply respects_ret.
  - intros e h'. destruct e; cbn; try done. intros [= <-].
    apply respects_bind; [congruence|apply respects_files_logging|intros ?].
    by apply respects_ret.
Qed.

Lemma respects_files_run_command (E : env) command :
  respects (λ s s', files s' = files s) (run_command E command).
Proof.
  unfold run_command. destruct (truthy _); [|by apply respects_ret].
  apply respects_bind; [congruence|apply respects_files_driver|intros ?].
  apply respects_files_driver.
Qed.

Lemma record_deployment_needs_history (E : env) sql_file s s' :
  files s !! deployment_history_file = None →
  _record_deployment E sql_file s ≠ (s', Ok tt).
Proof.
  intros Hnone. unfold _record_deployment, bind, now_isoformat, open_rw.
  cbn. by rewrite Hnone.
Qed.

(** Without a history file [execute_sql_file] does not return [True]:
    the deployment cannot be recorded. *)
Lemma execute_sql_file_needs_history (E : env) database sql_file s :
  files s !! deployment_history_file = None →
  (execute_sql_file E database sql_file s).2 ≠ Ok true.
Proof.
  intros Hnone.
  destruct (execute_sql_file E database sql_file s) as [s' r] eqn:Hrun.
  cbn. intros ->. unfold execute_sql_file in Hrun.
  apply bind_inv in Hrun as [(s1 & live & Hgets & Hrun)|(e & _ & [=])].
  injection Hgets as <- _.
  apply bind_inv in Hrun as [(s2 & connected & Hconn & Hrun)|(e & _ & [=])].
  assert (files s2 = files s) as Hs2.
  { destruct (negb live);
      [exact (respects_files_connect E database _ _ _ Hconn)
      |by injection Hconn as <- _]. }
  destruct connected; cbn [negb] in Hrun; [|done].
  unfold execute_sql_file_try, try_except in Hrun.
  match type of Hrun with
  | match ?body s2 with _ => _ end = _ =>
      destruct (body s2) as [s3 [b|e]] eqn:Hbody
  end.
  - apply bind_inv in Hbody as [(t1 & f & Hopen & Hbody)|(e & _ & [=])].
    assert (files t1 = files s2) as Ht1.
    { unfold open_r in Hopen. destruct (files s2 !! sql_file) as [f'|];
        [destruct (readable f')|]; by injection Hopen as <- _. }
    cbn zeta in Hbody.
    apply bind_inv in Hbody as [(t2 & [] & Hcur & Hbody)|(e & _ & [=])].
    apply respects_files_driver in Hcur.
    apply bind_inv in Hbody as [(t3 & [] & Hloop & Hbody)|(e & _ & [=])].
    apply (respects_for_each (λ s s', files s' = files s)) in Hloop;
      [|done|congruence|intros; apply respects_files_run_command].
    apply bind_inv in Hbody as [(t4 & [] & Hclose & Hbody)|(e & _ & [=])].
    apply respects_files_driver in Hclose.
    apply bind_inv in Hbody as [(t5 & [] & Hrec & Hbody)|(e & _ & [=])].
    revert Hrec. apply record_deployment_needs_history. congruence.
  - destruct e; cbn in Hrun; done.
Qed.

Lemma init_raises (E : env) s s0 e :
  __init__ E s = (s0, Raise e) →
  s0 = set_connection None s ∧ files s !! deployment_history_file = None.
Proof.
  unfold __init__, _init_deployment_history, bind, modify, gets,
    create_json, ret. cbn.
  destruct (files s !! deployment_history_file) as [f|] eqn:Hf; cbn;
    [done|].
  destruct (open_w_error E deployment_history_file); [|done].
  by intros [= <- _].
Qed.

(** X26. Called with an empty database name, with a number of arguments
    other than one, or with a path that names no file, [main] ends with
    exit status 1 after logging one error: no deployer is built, so the
    history document is not created, and the driver is not called. *)
Theorem deploy_main_usage_errors (E : env)
    (environ : string → option string) (argv : list string) (s : state) :
  getenv environ "MYSQL_DATABASE" "assignment1" = "" ∨
  length argv ≠ 2 ∨
  (∃ prog sql_file, argv = [prog; sql_file] ∧ files s !! sql_file = None) →
  ∃ msg, main E environ argv s
         = (set_log (log s ++ [LogRecord ERROR msg None]) s, Ok 1%Z).
Proof.
  intros Hbad. unfold main.
  destruct (truthy (getenv environ "MYSQL_DATABASE" "assignment1")) eqn:Hdb;
    cbn [negb]; [|by eexists].
  destruct Hbad as [Hempty|[Hlen|(prog & sql_file & -> & Hnone)]].
  - by rewrite Hempty in Hdb.
  - destruct argv as [|a0 [|a1 [|a2 argv]]];
      [by eexists | by eexists | by destruct Hlen | by eexists].
  - unfold os_path_exists, bind, gets. rewrite Hnone.
    rewrite bool_decide_eq_false_2 by (by intros [? [=]]). by eexists.
Qed.

Lemma deploy_main_usage_errors_witness :
  main Sample.deploy_env (λ _, None) ["deploy_changes_script.py"]
    Scenario.first_run_state
  = (set_log [LogRecord ERROR "Please provide SQL file path as argument"
                None] Scenario.first_run_state, Ok 1%Z).
Proof.
  destruct (deploy_main_usage_errors Sample.deploy_env (λ _, None)
              ["deploy_changes_script.py"] Scenario.first_run_state)
    as (msg & Hrun).
  - right. left. cbn. lia.
  - rewrite Hrun. vm_compute in Hrun. injection Hrun as <-. reflexivity.
Defined.



(** X28. A first deployment, end to end: with no history document yet
    but a place where it can be created, a readable script and a server
    that raises on no call, [main] creates the history, connects, runs
    the script, records it, closes the connection and ends with exit
    status 0. The history then holds exactly one record, for this
    script. *)
Theorem deploy_main_first_run (E : env) (environ : string → option string)
    (prog sql_file : string) (s : state) (f : file) :
  let database := getenv environ "MYSQL_DATABASE" "assignment1" in
  let calls := Connect :: Cursor ::
               statement_calls (statements (read E (data f)))
                 ++ [CursorClose] in
  truthy database = true →
  files s !! sql_file = Some f → readable f = true →
  files s !! deployment_history_file = None →
  open_w_error E deployment_history_file = None →
  accepted E (db_calls s) calls →
  ∃ s', main E environ [prog; sql_file] s = (s', Ok 0%Z) ∧
        history_is E s'
          [deployment_record (isoformat_now E (clock_reads s)) sql_file] ∧
        db_calls s' = db_calls s ++ calls ++ [Close] ∧
        is_live (connection s') = false.
Proof.
  intros database calls Hdb Hf Hr Hnone Hopen Hacc.
  destruct s as [conn fs cr made lg]. cbn [files db_calls clock_reads] in *.
  set (s0 := State None
               (<[deployment_history_file :=
                    File true true (JsonDump (JArray []))]> fs) cr made lg).
  assert (__init__ E (State conn fs cr made lg) = (s0, Ok tt)) as Hinit.
  { unfold __init__, _init_deployment_history, bind, modify, gets,
      create_json, ret. cbn. rewrite Hnone. cbn. by rewrite Hopen. }
  assert (sql_file ≠ deployment_history_file) as Hne by congruence.
  destruct (execute_sql_file_recorded E database sql_file s0 f []) as
    (s1 & Hrun & Hcalls & Hh & _ & Hlive & _).
  { cbn. by rewrite lookup_insert_ne. }
  { done. }
  { exact Hacc. }
  { eexists. cbn. rewrite lookup_insert_eq. done. }
  cbn [app clock_reads db_calls connect_calls connection is_live s0]
    in Hh, Hcalls.
  unfold main. fold database. rewrite Hdb. cbn [negb].
  erewrite bind_ok
    by (unfold os_path_exists, gets; cbn;
        by rewrite bool_decide_eq_true_2 by (by eexists)).
  cbn [negb].
  erewrite bind_ok
    by (apply try_ok; erewrite bind_ok by exact Hinit; reflexivity).
  cbn [negb].
  erewrite bind_ok.
  2:{ apply try_ok. erewrite bind_ok by exact Hrun. reflexivity. }
  cbv beta.
  match goal with
  | |- context [Py.bind disconnect _ ?s2] =>
      destruct (disconnect_closes s2) as (s3 & Hdis & Hdead & Hfiles & Hclose)
  end.
  erewrite bind_ok by exact Hdis.
  exists s3. split; [reflexivity|]. cbn in Hfiles, Hclose.
  rewrite Hlive in Hclose.
  split; [|split; [|done]].
  - destruct Hh as (h & Hfile & Hrest). exists h. by rewrite Hfiles.
  - rewrite Hclose, Hcalls. unfold calls.
    by rewrite <- !(assoc_L (++)).
Qed.

Lemma deploy_main_first_run_witness :
  ∃ s', main Sample.deploy_env (λ _, None)
          ["deploy_changes_script.py"; "add_column.sql"]
          Scenario.first_run_state = (s', Ok 0%Z) ∧
        history_is Sample.deploy_env s'
          [deployment_record "2024-03-05T12:00:00" "add_column.sql"] ∧
        db_calls s' = [Connect; Cursor;
                       Execute "ALTER TABLE t ADD COLUMN c INT"; Commit;
                       Execute "UPDATE t SET c = 0"; Commit; CursorClose;
                       Close].
Proof.
  destruct (deploy_main_first_run Sample.deploy_env (λ _, None)
              "deploy_changes_script.py" "add_column.sql"
              Scenario.first_run_state (Sample.script Sample.good_sql))
    as (s' & Hrun & Hh & Hcalls & _).
  - reflexivity.
  - reflexivity.
  - reflexivity.
  - reflexivity.
  - reflexivity.
  - cbn. repeat split.
  - exists s'. split; [exact Hrun|]. split; [exact Hh | exact Hcalls].
Defined.

End DeployMore.

(** ** Facts about test_connection.py *)

Module ProbeFacts.
Import Probe PyFacts.

Lemma driver_run (E : env) c s :
  driver E c s
  = (State (calls s ++ [c]) (stdout s),
     match driver_error E (calls s) c with
     | Some msg => Raise (MySQLError msg)
     | None => Ok tt
     end).
Proof. unfold driver. by destruct (driver_error E (calls s) c). Qed.

Ltac no_close :=
  cbn; repeat (apply not_elem_of_cons; split; [done|]); apply not_elem_of_nil.

(** The end of a run in which the call just made raised [m]. *)
Ltac probe_raised m :=
  eexists _, _; split; [reflexivity|];
  split; [cbn; by rewrite <- ?(assoc_L (++))|];
  right; split; [no_close|]; left; exists m; apply last_snoc.

(** X29. [test_mysql_connection] lets no driver error out: whichever
    call raises, it returns normally. It closes the connection only at
    the end of a run without error, and then the last line printed says
    so; when a call raises after the connection was made, the connection
    is left open and the last line printed is the error. *)
Theorem test_mysql_connection_outcomes (E : env) (s : state) :
  ∃ s' made,
    test_mysql_connection E s = (s', Ok tt) ∧
    calls s' = calls s ++ made ∧
    ((last made = Some Close ∧
      last (stdout s') = Some "MySQL connection is closed") ∨
     ((Close ∉ made) ∧
      ((∃ msg, last (stdout s')
               = Some ("Error while connecting to MySQL: " +:+ msg)) ∨
       (is_connected E = false ∧ stdout s' = stdout s)))).
Proof.
  destruct s as [before out].
  unfold test_mysql_connection, try_except, bind, print, connection_close,
    modify, ret.
  rewrite driver_run. cbn.
  destruct (driver_error E before Connect) as [m|]; cbn; [probe_raised m|].
  destruct (is_connected E) eqn:Hconn.
  2:{ eexists _, _. split; [reflexivity|]. split; [reflexivity|].
      right. split; [no_close | by right]. }
  rewrite driver_run. cbn.
  destruct (driver_error E _ GetServerInfo) as [m|]; cbn; [probe_raised m|].
  rewrite driver_run. cbn.
  destruct (driver_error E _ Cursor) as [m|]; cbn; [probe_raised m|].
  rewrite driver_run. cbn.
  destruct (driver_error E _ (Execute _)) as [m|]; cbn; [probe_raised m|].
  rewrite driver_run. cbn.
  destruct (driver_error E _ FetchOne) as [m|]; cbn; [probe_raised m|].
  rewrite driver_run. cbn.
  destruct (driver_error E _ CursorClose) as [m|]; cbn; [probe_raised m|].
  eexists _, [Connect; GetServerInfo; Cursor; Execute "select database();";
              FetchOne; CursorClose; Close].
  split; [reflexivity|]. split; [cbn; by rewrite <- ?(assoc_L (++))|].
  left. split; [done | apply last_snoc].
Qed.

(** X30. Against a server that answers every call,
    [test_mysql_connection] prints three lines (the server version, the
    current database, written [None] when no database is selected, and
    the closing message) and makes seven driver calls, the last of which
    closes the connection. *)
Theorem test_mysql_connection_healthy (E : env) (s : state) :
  (∀ made c, driver_error E made c = None) →
  is_connected E = true →
  test_mysql_connection E s
  = (State (calls s ++ [Connect; GetServerInfo; Cursor;
                        Execute "select database();"; FetchOne;
                        CursorClose; Close])
       (stdout s ++
          ["Connected to MySQL Server version " +:+ server_info E;
           "Connected to database: " +:+
             from_option id "None" (current_database E);
           "MySQL connection is closed"]),
     Ok tt).
Proof.
  intros Hok Hconn. destruct s as [before out].
  unfold test_mysql_connection, try_except, bind, print, connection_close,
    modify, ret.
  rewrite Hconn. repeat (rewrite driver_run, Hok; cbn).
  by rewrite <- !(assoc_L (++)).
Qed.

Lemma test_mysql_connection_healthy_witness :
  test_mysql_connection Scenario.healthy_probe_env (State [] [])
  = (State [Connect; GetServerInfo; Cursor; Execute "select database();";
            FetchOne; CursorClose; Close]
       ["Connected to MySQL Server version 8.0.36";
        "Connected to database: None";
        "MySQL connection is closed"],
     Ok tt).
Proof.
  apply (test_mysql_connection_healthy Scenario.healthy_probe_env
           (State [] [])); [done | reflexivity].
Defined.

End ProbeFacts.
